(** * Link preview API route: a shallow embedding of
      [src/pages/api/link-preview/[url].ts]

    The route is one asynchronous handler and three helpers
    ([getImageSearchString], [getBingImageSearch], [scrapeMetaTags]).
    JavaScript strings are sequences of UTF-16 code units, arrays are
    lists, [undefined] is a value of its own, and the calls that leave the
    process (the HTTP client, the headless browser, the image-search
    provider) are answered by a [World] and recorded in a trace. *)

From Stdlib Require Import NArith ZArith Ascii String Bool Lia.
From stdpp Require Import base option list.

Local Open Scope N_scope.

(** ** JavaScript strings *)

Module JsString.

(** A string is the list of its UTF-16 code units. *)
Definition jsstring := list N.

(** An ASCII literal of the source text. *)
Fixpoint lit (s : string) : jsstring :=
  match s with
  | EmptyString => []
  | String a s' => N_of_ascii a :: lit s'
  end.

Definition QUOTE : N := 34.      (* the double quote character *)
Definition SPACE : N := 32.
Definition EM_DASH : N := 8212.  (* U+2014 *)

Definition jsstring_eqb (s t : jsstring) : bool :=
  bool_decide (s = t).

(** A string is well formed when it holds no lone surrogate: every
    high surrogate is followed by a low one and no low one stands
    alone. The URI encoders throw on the others. *)
Definition isHighSurrogate (c : N) : bool := (55296 <=? c) && (c <=? 56319).
Definition isLowSurrogate (c : N) : bool := (56320 <=? c) && (c <=? 57343).

Fixpoint isWellFormed (s : jsstring) : bool :=
  match s with
  | [] => true
  | c :: s' =>
      if isHighSurrogate c then
        match s' with
        | d :: s'' => isLowSurrogate d && isWellFormed s''
        | [] => false
        end
      else if isLowSurrogate c then false
      else isWellFormed s'
  end.

(** [if (s)] on a string: the empty string is the only falsy one. *)
Definition truthy (s : jsstring) : bool :=
  match s with [] => false | _ :: _ => true end.

(** [if (v)] on a value that is a string, [null] or [undefined]; the
    branch taken binds the string. *)
Definition as_truthy (v : option jsstring) : option jsstring :=
  match v with
  | Some s => if truthy s then Some s else None
  | None => None
  end.

(** [a || b] on such values. *)
Definition js_or (a b : option jsstring) : option jsstring :=
  match as_truthy a with Some _ => a | None => b end.

(** WhiteSpace and LineTerminator of ECMAScript: what [\s] matches and
    what [trim] removes. *)
Definition isWhiteSpace (c : N) : bool :=
  (9 <=? c) && (c <=? 13)
  || (c =? 32) || (c =? 160) || (c =? 5760)
  || (8192 <=? c) && (c <=? 8202)
  || (c =? 8232) || (c =? 8233) || (c =? 8239) || (c =? 8287)
  || (c =? 12288) || (c =? 65279).

(** [/\S/.test(s)] *)
Definition test_nonspace (s : jsstring) : bool :=
  existsb (fun c => negb (isWhiteSpace c)) s.

Fixpoint trimStart (s : jsstring) : jsstring :=
  match s with
  | [] => []
  | c :: s' => if isWhiteSpace c then trimStart s' else s
  end.

Fixpoint trimEnd (s : jsstring) : jsstring :=
  match s with
  | [] => []
  | c :: s' =>
      match trimEnd s' with
      | [] => if isWhiteSpace c then [] else [c]
      | r => c :: r
      end
  end.

(** [s.trim()] *)
Definition trim (s : jsstring) : jsstring := trimEnd (trimStart s).

(** The character class of the last replacement in
    [getImageSearchString], in the order of the source: ampersand,
    slash, backslash, hash, comma, plus, the parentheses, dollar, tilde,
    percent, dot, apostrophe, double quote, colon, star, question mark,
    the angle brackets, the braces, the bar and the em dash. *)
Definition special_chars : list N :=
  [38; 47; 92; 35; 44; 43; 40; 41; 36; 126; 37; 46; 39; 34; 58; 42; 63;
   60; 62; 123; 125; 124; EM_DASH].

Definition isSpecialChar (c : N) : bool :=
  existsb (N.eqb c) special_chars.

(** [s.replace(/[...]/g, ' ')]: a class matches one code unit, so the
    global replacement is a map. *)
Definition replace_special (s : jsstring) : jsstring :=
  map (fun c => if isSpecialChar c then SPACE else c) s.

End JsString.
Export JsString.

(** ** The regular expression built from the root domain

    [new RegExp(rootDomain, 'ig')] compiles the text of a domain name.
    In such a text a letter, a digit and the hyphen stand for themselves
    and the dot is the wildcard; the model is exact for patterns over
    letters, digits, [-] and [.] ([domain_pattern]). *)

Module Regex.

Inductive atom :=
| AnyChar            (* [.] *)
| Lit (c : N).       (* a pattern character *)

Definition RegExp_ig (pattern : jsstring) : list atom :=
  map (fun c => if c =? 46 then AnyChar else Lit c) pattern.

Definition isLineTerminator (c : N) : bool :=
  (c =? 10) || (c =? 13) || (c =? 8232) || (c =? 8233).

(** Canonicalize of the [i] flag, on the ASCII range: a non-ASCII code
    unit never canonicalizes into the ASCII range, so against an ASCII
    pattern character the comparison below decides the match. Against a
    pattern character outside ASCII the source also folds the letters of
    other alphabets, which this definition does not: what is said about
    the matches of a pattern is said under [domain_pattern]. *)
Definition canonicalize (c : N) : N :=
  if (97 <=? c) && (c <=? 122) then c - 32 else c.

Definition atom_matches (a : atom) (c : N) : bool :=
  match a with
  | AnyChar => negb (isLineTerminator c)
  | Lit p => canonicalize c =? canonicalize p
  end.

(** Does the pattern match at the start of [s]? *)
Fixpoint matches_at (p : list atom) (s : jsstring) : bool :=
  match p, s with
  | [], _ => true
  | _ :: _, [] => false
  | a :: p', c :: s' => atom_matches a c && matches_at p' s'
  end.

(** [s.replace(re, '')] with the [g] flag, for a pattern of [n] atoms,
    [n > 0]: scan from the left; at a match drop its [n] code units and
    go on after it, otherwise keep the unit. [skip] counts the units of
    the current match still to drop. *)
Fixpoint remove_go (p : list atom) (skip : nat) (s : jsstring) : jsstring :=
  match s with
  | [] => []
  | c :: s' =>
      match skip with
      | S k => remove_go p k s'
      | O =>
          if matches_at p s then remove_go p (pred (length p)) s'
          else c :: remove_go p 0 s'
      end
  end.

(** The empty pattern matches the empty string everywhere, and removing
    empty matches changes nothing. *)
Definition remove_matches (p : list atom) (s : jsstring) : jsstring :=
  match p with
  | [] => s
  | _ :: _ => remove_go p 0 s
  end.

Definition domain_char (c : N) : bool :=
  (97 <=? c) && (c <=? 122) || (65 <=? c) && (c <=? 90)
  || (48 <=? c) && (c <=? 57) || (c =? 45) || (c =? 46).

Definition domain_pattern (s : jsstring) : bool := forallb domain_char s.

(** [haystack] contains [needle], letter case ignored. *)
Fixpoint contains_ci (needle haystack : jsstring) : bool :=
  matches_at (map Lit needle) haystack
  || match haystack with
     | [] => false
     | _ :: h' => contains_ci needle h'
     end.

End Regex.
Export Regex.

(** ** Values, records and the outside world *)

(** The response of the HTTP client carried by one of its errors. *)
Record AxiosResponse := {
  resp_data : jsstring;
  resp_status : N;
  resp_headers : jsstring
}.

(** A thrown value: what the catch block of [scrapeMetaTags] reads of it. *)
Record js_error := {
  err_response : option AxiosResponse;
  err_request : option jsstring;
  err_message : jsstring
}.

(** [Error(msg)] *)
Definition Error (msg : jsstring) : js_error :=
  {| err_response := None; err_request := None; err_message := msg |}.

(** The [URIError] of the URI functions. *)
Definition URIError : js_error := Error (lit "URI malformed").

(** The values of type [any] that the route handles: array slots, the
    entries of [errors] and the body of a fetched page. An object that
    is not an error or an array is given by its JSON text. *)
#[warnings="-register-all"]
Inductive jsany :=
| AUndefined
| ANull
| ABool (b : bool)
| AString (s : jsstring)
| ANumber (n : N)
| AError (e : js_error)
| AArray (l : list jsany)
| AObject (json : jsstring).

(** [if (v)] on such a value. *)
Definition js_truthy (v : jsany) : bool :=
  match v with
  | AUndefined | ANull => false
  | ABool b => b
  | AString s => truthy s
  | ANumber n => negb (n =? 0)
  | AError _ | AArray _ | AObject _ => true
  end.

(** [arr[i]] on an array of strings: [undefined] past the end. *)
Definition array_get (arr : list jsstring) (i : nat) : jsany :=
  match arr !! i with
  | Some s => AString s
  | None => AUndefined
  end.

(** [arr.splice(start, deleteCount, ...items)], the array afterwards.
    A start past the end is clamped to the length, a negative one counts
    from the end. *)
Definition splice {A : Type} (start deleteCount : Z) (items arr : list A) : list A :=
  let len := Z.of_nat (length arr) in
  let actualStart :=
    if (start <? 0)%Z then Z.max (len + start) 0 else Z.min start len in
  let actualDeleteCount :=
    Z.min (Z.max deleteCount 0) (len - actualStart) in
  take (Z.to_nat actualStart) arr ++ items
    ++ drop (Z.to_nat (actualStart + actualDeleteCount)) arr.

(** What [psl.parse] returns, as far as the handler looks at it. *)
Record psl_error := { psl_message : jsstring; psl_code : jsstring }.
Record ParsedDomain := {
  parsed_error : option psl_error;
  parsed_sld : option jsstring
}.

(** One entry of the provider's [value] array. *)
Record ImageResult := { contentUrl : jsstring }.

(** The answers of the three network collaborators. *)
Inductive provider_reply :=
| ProviderData (value : option (list ImageResult))  (* [res.data.value] *)
| ProviderError (e : js_error).                     (* the request rejects *)

Inductive fetch_reply :=
| FetchData (data : jsstring)                       (* [res.data], a string *)
| FetchOther (data : jsany)
    (* [res.data] of another type: the HTTP client parses a JSON body *)
| FetchError (e : js_error).

Inductive render_reply :=
| RenderFailed (e : js_error)
    (* launch, newPage, goto or evaluate rejects: [html] is not assigned *)
| RenderEvaluated (outerHTML : option jsstring) (close : option js_error).
    (* evaluate assigned [html]; [browser.close()] may still reject *)

(** What the handler does to the outside, in order. *)
Inductive event :=
| EvRequest (url : jsstring) (r : provider_reply)   (* [api.request(config)] *)
| EvFetch (url : jsstring) (r : fetch_reply)        (* [api(url)] *)
| EvRender (url : jsstring) (r : render_reply)      (* puppeteer *)
| EvLog (args : list jsany).                        (* [console.log] *)

Definition is_request (e : event) : bool :=
  match e with EvRequest _ _ => true | _ => false end.

(** The collaborators of the route. [isValidWebUrl] and [extractHostname]
    are imported from the [utils] module and [api] from the [lib/api]
    module, whose code is outside the file of the route; [psl],
    [cheerio], [puppeteer] and the URI functions are libraries. The pure
    ones are functions of their argument, the network ones also of what
    happened before. [encodeURIComponent] is the text of the encoding;
    the call throws on a string that is not well formed, which
    [getBingImageSearch] checks. The two URI calls of [scrapeMetaTags]
    are one expression inside its first [try]: [decodeURI] answers with
    the error either of them throws and [encodeURI] with the text
    encoded again. [cheerio] loads every string; on a value that is not
    a string [cheerio_load] is the error it throws or the document it
    builds, named by its markup. *)
Record World := {
  base64_decode : jsstring -> jsstring;
  decodeURIComponent : jsstring -> js_error + jsstring;
  decodeURI : jsstring -> js_error + jsstring;
  encodeURI : jsstring -> jsstring;
  encodeURIComponent : jsstring -> jsstring;
  isValidWebUrl : jsstring -> bool;
  extractHostname : jsstring -> jsstring;
  psl_get : jsstring -> option jsstring;
  psl_parse : jsstring -> ParsedDomain;
  JSON_stringify : psl_error -> jsstring;
  api_request : list event -> jsstring -> provider_reply;
  api_get : list event -> jsstring -> fetch_reply;
  puppeteer_render : list event -> jsstring -> render_reply;
  (** [$(selector).first().text()] and [$(selector).attr(name)] on the
      document loaded from [html] *)
  cheerio_text : jsstring -> jsstring -> jsstring;
  cheerio_attr : jsstring -> jsstring -> jsstring -> option jsstring;
  cheerio_load : jsany -> js_error + jsstring
}.

(** ** Requests and responses *)

Inductive query_value :=
| QUndefined
| QString (s : jsstring)
| QArray (l : list jsstring).

Record Request := {
  req_method : option jsstring;
  req_query_url : query_value
}.

Module Tags.
Record MetaTags := {
  url : jsstring;
  title : jsstring;
  favicon : option jsstring;
  description : option jsstring;
  image : option jsstring;
  author : option jsstring;
  siteName : option jsstring
}.
End Tags.
Export Tags.

Record PreviewResult := {
  metaTags : option MetaTags;
  imageSearch : jsstring;
  imageResults : list jsany
}.

(** The type [apiData] of the source. *)
Record apiData := {
  success : bool;
  result : option PreviewResult;
  error : option jsstring;
  errors : option (list jsany)
}.

Record Response := { status : N; body : apiData }.

(** Modelled from the spec: [isString] of the [utils] module, which is
    not among the sources; the spec accepts the parameter when it is
    present and is exactly one string, not several values. *)
Definition isString (v : query_value) : option jsstring :=
  match v with
  | QString s => Some s
  | QUndefined | QArray _ => None
  end.

(** ** Computations: a trace of events, and exceptions *)

Inductive outcome (A : Type) :=
| Return (a : A)
| Throw (e : js_error).
Arguments Return {A} a.
Arguments Throw {A} e.

Definition M (A : Type) : Type := list event -> outcome A * list event.

Definition ret {A} (a : A) : M A := fun h => (Return a, h).

Definition throw {A} (e : js_error) : M A := fun h => (Throw e, h).

Definition bind {A B} (c : M A) (k : A -> M B) : M B :=
  fun h =>
    match c h with
    | (Return a, h') => k a h'
    | (Throw e, h') => (Throw e, h')
    end.

(** [try { c } catch (err) { handler err }] *)
Definition try_catch {A} (c : M A) (handler : js_error -> M A) : M A :=
  fun h =>
    match c h with
    | (Return a, h') => (Return a, h')
    | (Throw e, h') => handler e h'
    end.

(** A library function that returns or throws. *)
Definition lift {A} (r : js_error + A) : M A :=
  match r with
  | inl e => throw e
  | inr a => ret a
  end.

Declare Scope js_scope.
Delimit Scope js_scope with js.
Notation "x <- c ;; k" := (bind c (fun x => k))
  (at level 100, c at next level, right associativity) : js_scope.
Notation "c ;;; k" := (bind c (fun _ => k))
  (at level 100, right associativity) : js_scope.
Local Open Scope js_scope.

Definition console_log (args : list jsany) : M unit :=
  fun h => (Return tt, h ++ [EvLog args]).

(** [await api.request(config)]: the value of [res.data.value]. *)
Definition request (w : World) (config_url : jsstring) : M (option (list ImageResult)) :=
  fun h =>
    let r := api_request w h config_url in
    match r with
    | ProviderData value => (Return value, h ++ [EvRequest config_url r])
    | ProviderError e => (Throw e, h ++ [EvRequest config_url r])
    end.

(** [await api(url)]: the value of [res.data]. *)
Definition fetch (w : World) (u : jsstring) : M jsany :=
  fun h =>
    let r := api_get w h u in
    match r with
    | FetchData data => (Return (AString data), h ++ [EvFetch u r])
    | FetchOther data => (Return data, h ++ [EvFetch u r])
    | FetchError e => (Throw e, h ++ [EvFetch u r])
    end.

(** The body of the second [try] of [scrapeMetaTags]: launch the
    browser, open the page, capture the outer HTML and close. It returns
    [html] as the block leaves it and the value the block threw, if any:
    an assignment made before the throw stays. *)
Definition render (w : World) (u : jsstring) (html : jsany)
  : M (jsany * option js_error) :=
  fun h =>
    let r := puppeteer_render w h u in
    match r with
    | RenderFailed e => (Return (html, Some e), h ++ [EvRender u r])
    | RenderEvaluated (Some outerHTML) close =>
        (Return (AString outerHTML, close), h ++ [EvRender u r])
    | RenderEvaluated None close =>
        (Return (AUndefined, close), h ++ [EvRender u r])
    end.

(** [cheerio.load(html)]: the document the selectors run on, or the
    error thrown. *)
Definition cheerio_document (w : World) (html : jsany) : js_error + jsstring :=
  match html with
  | AString markup => inr markup
  | _ => cheerio_load w html
  end.

(** ** The helpers of the route *)

(** [getImageSearchString(title, url, siteName)] *)
Definition getImageSearchString (w : World)
    (title url : jsstring) (siteName : option jsstring) : jsstring :=
  let rootDomain := psl_get w (extractHostname w url) in
  let searchString := title in
  let searchString :=
    match as_truthy rootDomain with
    | Some rootDomain =>
        let domainSearchMask := rootDomain in
        let domainRegEx := RegExp_ig domainSearchMask in
        let stripRootDomain := remove_matches domainRegEx title in
        if test_nonspace stripRootDomain then stripRootDomain
        else searchString
    | None => searchString
    end in
  let stripSpecialChars := trim (replace_special searchString) in
  stripSpecialChars.

(** The object [getBingImageSearch] resolves to: [{ results?, error? }]. *)
Record ImageSearch := {
  results : option (list ImageResult);
  search_error : jsany
}.

(** [getBingImageSearch(search)] *)
Definition getBingImageSearch (w : World) (search : jsstring) : M ImageSearch :=
  let url := lit "https://api.bing.microsoft.com/v7.0/images/search" in
  if truthy search then
    encoded <- (if isWellFormed search then ret (encodeURIComponent w search)
                else throw URIError) ;;
    let config_url := url ++ lit "?q=" ++ encoded ++ lit "&aspect=Square" in
    try_catch
      (value <- request w config_url ;;
       ret {| results := value; search_error := AUndefined |})
      (fun error =>
         ret {| results := None; search_error := AError error |})
  else
    ret {| results := None;
           search_error := AString (lit "No search string for image") |}.

(** What [scrapeMetaTags] resolves to: [{ data }] or [{ errors }]. *)
Inductive ScrapeResult :=
| ScrapeData (data : MetaTags)
| ScrapeErrors (errors : list js_error).

(** The logging of the first catch block of [scrapeMetaTags]. *)
Definition log_fetch_error (err : js_error) : M unit :=
  match err_response err with
  | Some response =>
      console_log [AString (resp_data response)] ;;;
      console_log [ANumber (resp_status response)] ;;;
      console_log [AString (resp_headers response)]
  | None =>
      match err_request err with
      | Some req => console_log [AString req]
      | None => console_log [AString (lit "Error"); AString (err_message err)]
      end
  end.

(** [getMetatag(name)] over the document loaded from [html]; the chain
    of [||] associates to the left. *)
Definition getMetatag (w : World) (html name : jsstring) : option jsstring :=
  let content := lit "content" in
  js_or
    (js_or
       (js_or
          (cheerio_attr w html (lit "meta[name=" ++ name ++ lit "]") content)
          (cheerio_attr w html
             (lit "meta[name=" ++ [QUOTE] ++ lit "og:" ++ name ++ [QUOTE] ++ lit "]")
             content))
       (cheerio_attr w html
          (lit "meta[property=" ++ [QUOTE] ++ lit "og:" ++ name ++ [QUOTE] ++ lit "]")
          content))
    (cheerio_attr w html
       (lit "meta[name=" ++ [QUOTE] ++ lit "twitter:" ++ name ++ [QUOTE] ++ lit "]")
       content).

(** [scrapeMetaTags(url)] *)
Definition scrapeMetaTags (w : World) (url : jsstring) : M ScrapeResult :=
  let html : jsany := AUndefined in
  let errors : list js_error := [] in
  st <- try_catch
          (decoded <- lift (decodeURI w url) ;;
           data <- fetch w (encodeURI w decoded) ;;
           ret (data, errors))
          (fun err =>
             log_fetch_error err ;;;
             ret (html, errors ++ [err])) ;;
  let '(html, errors) := st in
  st <- (if js_truthy html then ret (html, errors)
         else
           r <- render w url html ;;
           match r with
           | (html, None) => ret (html, errors)
           | (html, Some err) =>
               console_log [AError err] ;;;
               ret (html, errors ++ [err])
           end) ;;
  let '(html, errors) := st in
  if js_truthy html then
      (* outside both try blocks *)
      html <- lift (cheerio_document w html) ;;
      ret (ScrapeData
             {| url := url;
                title := cheerio_text w html (lit "title");
                favicon :=
                  cheerio_attr w html
                    (lit "link[rel=" ++ [QUOTE] ++ lit "shortcut icon" ++ [QUOTE] ++ lit "]")
                    (lit "href");
                description := getMetatag w html (lit "description");
                image := getMetatag w html (lit "image");
                author := getMetatag w html (lit "author");
                siteName := getMetatag w html (lit "site_name") |})
  else ret (ScrapeErrors errors).

(** [res.status(code).json(data)] *)
Definition json (code : N) (data : apiData) : M Response :=
  ret {| status := code; body := data |}.

(** The text of [req.method] inside a template string. *)
Definition method_text (m : option jsstring) : jsstring :=
  match m with
  | Some s => s
  | None => lit "undefined"
  end.

Definition is_GET (m : option jsstring) : bool :=
  match m with
  | Some s => jsstring_eqb s (lit "GET")
  | None => false
  end.

(** ** The handler *)

Definition handler (w : World) (req : Request) : M Response :=
  match isString (req_query_url req) with
  | Some url =>
    targetUrl <- lift (decodeURIComponent w (base64_decode w url)) ;;
    if isValidWebUrl w targetUrl then
      if is_GET (req_method req) then
        (* Get images for root domain *)
        let rootDomainImageUrls : list jsstring := [] in
        let errors : list jsany := [] in
        st <- match as_truthy (psl_get w (extractHostname w targetUrl)) with
              | Some rootDomain =>
                  let parsed := psl_parse w rootDomain in
                  match parsed_error parsed with
                  | None =>
                      match as_truthy (parsed_sld parsed) with
                      | Some sld =>
                          let imageSearchString := sld in
                          imageSearch <- getBingImageSearch w imageSearchString ;;
                          match results imageSearch with
                          | Some rs =>
                              ret (map contentUrl rs, imageSearchString, errors)
                          | None =>
                              ret (rootDomainImageUrls, imageSearchString,
                                   errors ++ [search_error imageSearch])
                          end
                      | None => throw (Error (lit "sld not found"))
                      end
                  | Some e => throw (Error (JSON_stringify w e))
                  end
              | None => throw (Error (lit "Root domain not found"))
              end ;;
        let '(rootDomainImageUrls, imageSearchString, errors) := st in
        (* Get images specific to given url *)
        tags <- scrapeMetaTags w targetUrl ;;
        match tags with
        | ScrapeData data =>
            if test_nonspace (title data) then
              let imageSearchString :=
                getImageSearchString w (title data) (Tags.url data) (siteName data) in
              imageSearch <- getBingImageSearch w imageSearchString ;;
              match results imageSearch with
              | Some rs =>
                  let imageUrls := map (fun r => AString (contentUrl r)) rs in
                  (* Add in some of the root domain images *)
                  let imageUrls := splice 2 0 [array_get rootDomainImageUrls 0] imageUrls in
                  let imageUrls := splice 5 0 [array_get rootDomainImageUrls 1] imageUrls in
                  let imageUrls := splice 10 0 [array_get rootDomainImageUrls 2] imageUrls in
                  let imageUrls := splice 15 0 [array_get rootDomainImageUrls 3] imageUrls in
                  let imageUrls := splice 20 0 [array_get rootDomainImageUrls 4] imageUrls in
                  json 200
                    {| result := Some {| metaTags := Some data;
                                         imageSearch := imageSearchString;
                                         imageResults := imageUrls |};
                       success := true; error := None; errors := None |}
              | None =>
                  (* Fallback to just show root domain images *)
                  let errors := errors ++ [search_error imageSearch] in
                  json 200
                    {| errors := Some errors;
                       success := true;
                       result := Some {| metaTags := Some data;
                                         imageSearch := imageSearchString;
                                         imageResults := map AString rootDomainImageUrls |};
                       error := None |}
              end
            else
              json 200
                {| errors := Some errors;
                   success := true;
                   result := Some {| metaTags := Some data;
                                     imageSearch := imageSearchString;
                                     imageResults := map AString rootDomainImageUrls |};
                   error := None |}
        | ScrapeErrors tags_errors =>
            let errors := errors ++ [AArray (map AError tags_errors)] in
            json 200
              {| errors := Some errors;
                 success := true;
                 result := Some {| metaTags := None;
                                   imageSearch := imageSearchString;
                                   imageResults := map AString rootDomainImageUrls |};
                 error := None |}
        end
      else
        json 404
          {| success := false;
             error := Some (lit "Method " ++ method_text (req_method req)
                              ++ lit " not allowed");
             result := None; errors := None |}
    else
      json 400 {| success := false; error := Some (lit "Invalid web url");
                  result := None; errors := None |}
  | None =>
    json 400 {| success := false; error := Some (lit "Only one url can be checked");
                result := None; errors := None |}
  end.

(** ** The interleaving helper

    [mergeImageUrls] is defined in the file of the route and called
    nowhere in it. *)

(** The [for] loop of [mergeImageUrls]: [n] iterations are left and [i]
    is the index of the next one. *)
Fixpoint merge_loop (array1 array2 : list jsstring) (n i : nat)
    (imageUrls : list jsany) : list jsany :=
  match n with
  | O => imageUrls
  | S n' =>
      merge_loop array1 array2 n' (S i)
        (imageUrls ++ [array_get array1 i; array_get array2 i])
  end.

(** [arr.slice(start)] for a start between 0 and the length. *)
Definition slice {A : Type} (start : nat) (arr : list A) : list A :=
  drop start arr.

(** [mergeImageUrls(array1, array2)] *)
Definition mergeImageUrls (array1 array2 : list jsstring) : list jsany :=
  let imageUrls : list jsany := [] in
  let l := Nat.min (length array1) (length array2) in
  let imageUrls := merge_loop array1 array2 l 0 imageUrls in
  imageUrls ++ map AString (slice l array1) ++ map AString (slice l array2).

(** Two lists taken in turns, as long as both last. *)
Fixpoint alternate {A : Type} (xs ys : list A) : list A :=
  match xs, ys with
  | x :: xs', y :: ys' => x :: y :: alternate xs' ys'
  | _, _ => []
  end.

(** [re.test(s)] for a pattern of the root domain: a match starts
    somewhere in [s]. *)
Fixpoint regex_test (p : list atom) (s : jsstring) : bool :=
  matches_at p s
  || match s with
     | [] => false
     | _ :: s' => regex_test p s'
     end.

Definition is_fetch (e : event) : bool :=
  match e with EvFetch _ _ => true | _ => false end.

Definition is_render (e : event) : bool :=
  match e with EvRender _ _ => true | _ => false end.

(** The images and the errors the root-domain branch of the handler
    leaves behind, from what its search resolved to. *)
Definition root_images (rootSearch : ImageSearch) : list jsstring :=
  match results rootSearch with
  | Some rs => map contentUrl rs
  | None => []
  end.

Definition root_errors (rootSearch : ImageSearch) : list jsany :=
  match results rootSearch with
  | Some _ => []
  | None => [search_error rootSearch]
  end.

(** The URL [getBingImageSearch] requests for a search string. *)
Definition search_url (w : World) (search : jsstring) : jsstring :=
  lit "https://api.bing.microsoft.com/v7.0/images/search"
    ++ lit "?q=" ++ encodeURIComponent w search ++ lit "&aspect=Square".

(** ** Statements about a request *)

(** The request carries one [url] string that decodes to [targetUrl],
    a valid web URL. *)
Definition validated (w : World) (req : Request) (targetUrl : jsstring) : Prop :=
  exists raw,
    req_query_url req = QString raw
    /\ decodeURIComponent w (base64_decode w raw) = inr targetUrl
    /\ isValidWebUrl w targetUrl = true.

(** The hostname has a registrable domain, the parser accepts it and it
    has the second-level label [sld]. *)
Definition root_resolves (w : World) (targetUrl sld : jsstring) : Prop :=
  exists rootDomain,
    as_truthy (psl_get w (extractHostname w targetUrl)) = Some rootDomain
    /\ parsed_error (psl_parse w rootDomain) = None
    /\ as_truthy (parsed_sld (psl_parse w rootDomain)) = Some sld.

(** No registrable domain, a parser error, or no second-level label. *)
Definition root_fails (w : World) (targetUrl : jsstring) : Prop :=
  as_truthy (psl_get w (extractHostname w targetUrl)) = None
  \/ exists rootDomain,
       as_truthy (psl_get w (extractHostname w targetUrl)) = Some rootDomain
       /\ (parsed_error (psl_parse w rootDomain) <> None
           \/ as_truthy (parsed_sld (psl_parse w rootDomain)) = None).

(** Lines 62 to 66 of the handler as one expression. *)
Definition splice_merge (rootDomainImageUrls : list jsstring)
    (imageUrls : list jsany) : list jsany :=
  splice 20 0 [array_get rootDomainImageUrls 4]
   (splice 15 0 [array_get rootDomainImageUrls 3]
    (splice 10 0 [array_get rootDomainImageUrls 2]
     (splice 5 0 [array_get rootDomainImageUrls 1]
      (splice 2 0 [array_get rootDomainImageUrls 0] imageUrls)))).

(** The merge policy in the words of the specification: insert at an
    index of the sequence as it has grown so far. *)
Definition insert_at {A : Type} (i : nat) (x : A) (l : list A) : list A :=
  take i l ++ x :: drop i l.

Definition spec_merge {A : Type} (a b c d e : A) (pageSpecificImages : list A) : list A :=
  insert_at 20 e
   (insert_at 15 d
    (insert_at 10 c
     (insert_at 5 b
      (insert_at 2 a pageSpecificImages)))).

(** The events a run added to the history it started from. *)
Definition requests (evs : list event) : list event := filter is_request evs.

(** The value a scrape obtained for [html], read off its events: a body
    of the direct fetch or an outer HTML of the render, when truthy. *)
Definition html_of_event (e : event) : option jsany :=
  match e with
  | EvFetch _ (FetchData data) =>
      if truthy data then Some (AString data) else None
  | EvFetch _ (FetchOther data) =>
      if js_truthy data then Some data else None
  | EvRender _ (RenderEvaluated (Some outerHTML) _) =>
      if truthy outerHTML then Some (AString outerHTML) else None
  | _ => None
  end.

Definition html_obtained (evs : list event) : option jsany :=
  head (omap html_of_event evs).

(** A computation appends to the history it starts from, and [P] holds
    of the events it appended. *)
Definition appends {A} (P : list event -> Prop) (c : M A) : Prop :=
  forall h o h', c h = (o, h') -> exists evs, h' = h ++ evs /\ P evs.

(** A computation returns, whatever happened before: it does not throw. *)
Definition returns {A} (c : M A) : Prop :=
  forall h, exists a h', c h = (Return a, h').

(** ** Example worlds *)

Module Examples.

Definition img (name : string) : ImageResult :=
  {| contentUrl := lit "https://img.example/" ++ lit name |}.

Definition images (names : list string) : list ImageResult := map img names.

(** A provider that answers the first request of a run with [first] and
    every later one with [later]. *)
Definition provider (first later : provider_reply)
    (h : list event) (_ : jsstring) : provider_reply :=
  match requests h with
  | [] => first
  | _ :: _ => later
  end.

(** The hostname of [scheme://host/path]: the text between the second
    and the third slash. *)
Fixpoint until_slash (s : jsstring) : jsstring :=
  match s with
  | [] => []
  | c :: s' => if c =? 47 then [] else c :: until_slash s'
  end.

Fixpoint after_double_slash (s : jsstring) : jsstring :=
  match s with
  | c1 :: ((c2 :: s'') as s') =>
      if (c1 =? 47) && (c2 =? 47) then s'' else after_double_slash s'
  | _ => []
  end.

Definition hostname (u : jsstring) : jsstring := until_slash (after_double_slash u).

Definition starts_with (p s : jsstring) : bool :=
  bool_decide (take (length p) s = p).

(** The label before the first dot. *)
Fixpoint until_dot (s : jsstring) : jsstring :=
  match s with
  | [] => []
  | c :: s' => if c =? 46 then [] else c :: until_dot s'
  end.

Definition has_dot (s : jsstring) : bool := existsb (N.eqb 46) s.

Definition type_error : js_error := Error (lit "TypeError").

(** A world where every two-label hostname is its own registrable
    domain, the page at any URL has the title [page_title] and no meta
    tags, and the provider is [images_for]. *)
Definition world (page_title : jsstring)
    (images_for : list event -> jsstring -> provider_reply) : World :=
  {| base64_decode := fun s => s;
     decodeURIComponent := fun s => inr s;
     decodeURI := fun s => inr s;
     encodeURI := fun s => s;
     encodeURIComponent := fun s => s;
     isValidWebUrl := fun u =>
       starts_with (lit "http://") u || starts_with (lit "https://") u;
     extractHostname := hostname;
     psl_get := fun host => if has_dot host then Some host else None;
     psl_parse := fun d =>
       {| parsed_error := None; parsed_sld := Some (until_dot d) |};
     JSON_stringify := fun e => psl_message e;
     api_request := images_for;
     api_get := fun _ _ => FetchData (lit "<html></html>");
     puppeteer_render := fun _ _ => RenderEvaluated None None;
     cheerio_text := fun _ _ => page_title;
     cheerio_attr := fun _ _ _ => None;
     cheerio_load := fun _ => inl type_error |}.

Definition GET (u : string) : Request :=
  {| req_method := Some (lit "GET"); req_query_url := QString (lit u) |}.

Definition POST (u : string) : Request :=
  {| req_method := Some (lit "POST"); req_query_url := QString (lit u) |}.

Definition five : provider_reply :=
  ProviderData (Some (images ["a"; "b"; "c"; "d"; "e"]%string)).

Definition ten : provider_reply :=
  ProviderData (Some (images ["p0"; "p1"; "p2"; "p3"; "p4"; "p5"; "p6"; "p7"; "p8"; "p9"]%string)).

Definition refused : provider_reply :=
  ProviderError (Error (lit "Request failed with status code 401")).

Definition article : jsstring := lit "Example Article".

(** The world of [world] with other answers from the URI decoders, the
    HTTP client and the browser. *)
Definition world_io (page_title : jsstring)
    (images_for : list event -> jsstring -> provider_reply)
    (decodeComponent decode : jsstring -> js_error + jsstring)
    (get : list event -> jsstring -> fetch_reply)
    (launch : list event -> jsstring -> render_reply) : World :=
  let w := world page_title images_for in
  {| base64_decode := base64_decode w;
     decodeURIComponent := decodeComponent;
     decodeURI := decode;
     encodeURI := encodeURI w;
     encodeURIComponent := encodeURIComponent w;
     isValidWebUrl := isValidWebUrl w;
     extractHostname := extractHostname w;
     psl_get := psl_get w;
     psl_parse := psl_parse w;
     JSON_stringify := JSON_stringify w;
     api_request := images_for;
     api_get := get;
     puppeteer_render := launch;
     cheerio_text := cheerio_text w;
     cheerio_attr := cheerio_attr w;
     cheerio_load := cheerio_load w |}.

Definition malformed : js_error := Error (lit "URI malformed").

Definition timed_out : js_error :=
  {| err_response := None; err_request := Some (lit "ClientRequest");
     err_message := lit "timeout of 1000ms exceeded" |}.

Definition crashed : js_error := Error (lit "Failed to launch the browser process").

(** No page can be fetched or rendered. *)
Definition offline (page_title : jsstring)
    (images_for : list event -> jsstring -> provider_reply) : World :=
  world_io page_title images_for (fun s => inr s) (fun s => inr s)
    (fun _ _ => FetchError timed_out) (fun _ _ => RenderFailed crashed).

(** The page is empty for the HTTP client and rendered by the browser. *)
Definition rendered (page_title : jsstring)
    (images_for : list event -> jsstring -> provider_reply) : World :=
  world_io page_title images_for (fun s => inr s) (fun _ => inl malformed)
    (fun _ _ => FetchData [])
    (fun _ _ => RenderEvaluated (Some (lit "<html></html>")) None).

(** The parameter of the request does not decode. *)
Definition undecodable : World :=
  world_io article (provider five ten) (fun _ => inl malformed) (fun s => inr s)
    (fun _ _ => FetchData (lit "<html></html>"))
    (fun _ _ => RenderEvaluated None None).

Definition no_results : provider_reply := ProviderData None.

(** The page is a JSON document holding the number 42, which the HTTP
    client hands over as a number. *)
Definition json_page (page_title : jsstring)
    (images_for : list event -> jsstring -> provider_reply) : World :=
  world_io page_title images_for (fun s => inr s) (fun s => inr s)
    (fun _ _ => FetchOther (ANumber 42))
    (fun _ _ => RenderEvaluated None None).

End Examples.
Import Examples.

(** ** The string functions on examples *)

Example trim_example : trim (lit "  a b  ") = lit "a b".
Proof. reflexivity. Qed.

Example replace_special_example :
  replace_special (lit "a.b|c" ++ [EM_DASH] ++ lit "d-e") = lit "a b c d-e".
Proof. reflexivity. Qed.

Example test_nonspace_example :
  test_nonspace (lit " ") = false /\ test_nonspace [160; 9; 8232] = false
  /\ test_nonspace (lit " x ") = true.
Proof. repeat split. Qed.

(** The dot of the pattern matches any character, letter case is
    ignored, and the scan goes on behind a match. *)
Example remove_matches_example :
  remove_matches (RegExp_ig (lit "example.com")) (lit "News | Example.COM")
    = lit "News | "
  /\ remove_matches (RegExp_ig (lit "example.com")) (lit "exampleXcom!")
      = lit "!"
  /\ remove_matches (RegExp_ig (lit "a.a")) (lit "axaxa") = lit "xa"
  /\ remove_matches (RegExp_ig (lit "example.com")) (lit "Example Site")
      = lit "Example Site".
Proof. repeat split. Qed.

Example splice_example :
  splice 2 0 [9%nat] [1; 2; 3]%nat = [1; 2; 9; 3]%nat
  /\ splice 15 0 [9%nat] [1; 2; 3]%nat = [1; 2; 3; 9]%nat
  /\ splice (-1) 1 [] [1; 2; 3]%nat = [1; 2]%nat.
Proof. repeat split. Qed.

(** ** The monad *)

Section Monad.

Context {A B : Type}.

Lemma bind_ret (a : A) (k : A -> M B) h : bind (ret a) k h = k a h.
Proof. reflexivity. Qed.

Lemma bind_throw (e : js_error) (k : A -> M B) h :
  bind (throw e) k h = (Throw e, h).
Proof. reflexivity. Qed.

Lemma bind_returns (c : M A) (k : A -> M B) h a h' :
  c h = (Return a, h') -> bind c k h = k a h'.
Proof. intros Hc. unfold bind. now rewrite Hc. Qed.

Lemma bind_throws (c : M A) (k : A -> M B) h e h' :
  c h = (Throw e, h') -> bind c k h = (Throw e, h').
Proof. intros Hc. unfold bind. now rewrite Hc. Qed.

End Monad.

Lemma bind_inv {A B} (c : M A) (k : A -> M B) h o h' :
  bind c k h = (o, h') ->
  (exists a h1, c h = (Return a, h1) /\ k a h1 = (o, h'))
  \/ (exists e, c h = (Throw e, h') /\ o = Throw e).
Proof.
  unfold bind. destruct (c h) as [[a | e] h1]; intros H.
  - left. now exists a, h1.
  - right. injection H as <- <-. now exists e.
Qed.

(** A search returns, or throws [URIError] before any request when its
    query holds a lone surrogate. *)
Lemma getBingImageSearch_outcome w search h :
  (exists found h', getBingImageSearch w search h = (Return found, h'))
  \/ (truthy search = true /\ isWellFormed search = false
      /\ getBingImageSearch w search h = (Throw URIError, h)).
Proof.
  unfold getBingImageSearch.
  destruct (truthy search); [| left; eexists _, _; reflexivity].
  destruct (isWellFormed search); [| right; repeat split].
  left. rewrite bind_ret. unfold try_catch, bind, request.
  destruct (api_request w h _); eexists _, _; reflexivity.
Qed.

Lemma getBingImageSearch_returns w search :
  isWellFormed search = true -> returns (getBingImageSearch w search).
Proof.
  intros Hwf h.
  destruct (getBingImageSearch_outcome w search h) as [H | (_ & Hill & _)];
    [exact H | congruence].
Qed.

(** One search issues at most one request, and nothing else. *)
Lemma getBingImageSearch_appends w search :
  appends (fun evs => length evs <= 1 /\ requests evs = evs)%nat
          (getBingImageSearch w search).
Proof.
  intros h o h'. unfold getBingImageSearch.
  destruct (truthy search).
  - destruct (isWellFormed search).
    + rewrite bind_ret. unfold try_catch, bind, request.
      destruct (api_request w h _) eqn:Hr; cbn; intros [= <- <-];
        (eexists; split; [reflexivity | cbn; split; [lia | reflexivity]]).
    + rewrite bind_throw. intros [= <- <-]. exists []. rewrite app_nil_r.
      cbn. split; [reflexivity | split; [lia | reflexivity]].
  - intros [= <- <-]. exists []. rewrite app_nil_r. cbn. split; [reflexivity | split; [lia | reflexivity]].
Qed.

(** A search whose provider request rejects resolves to the thrown
    value as [error], without [results]. *)
Lemma getBingImageSearch_rejected w search h config_url e :
  truthy search = true ->
  isWellFormed search = true ->
  config_url = lit "https://api.bing.microsoft.com/v7.0/images/search"
                 ++ lit "?q=" ++ encodeURIComponent w search ++ lit "&aspect=Square" ->
  api_request w h config_url = ProviderError e ->
  getBingImageSearch w search h =
    (Return {| results := None; search_error := AError e |},
     h ++ [EvRequest config_url (ProviderError e)]).
Proof.
  intros Hsearch Hwf -> Hreply.
  unfold getBingImageSearch. rewrite Hsearch, Hwf, bind_ret.
  unfold try_catch, bind, request. now rewrite Hreply.
Qed.

(** Without a search string no request is made. *)
Lemma getBingImageSearch_empty w h :
  getBingImageSearch w [] h =
    (Return {| results := None;
               search_error := AString (lit "No search string for image") |}, h).
Proof. reflexivity. Qed.

(** ** [scrapeMetaTags] *)

Ltac case_split :=
  match goal with
  | |- context [match ?x with _ => _ end] =>
      lazymatch x with
      | context [match _ with _ => _ end] => fail
      | _ => destruct x eqn:?
      end
  end.

(** Every run of [scrapeMetaTags] appends fetch, render and log events
    only. Without a truthy [html] from its two attempts it resolves to
    [errors]; with one it loads the document, outside the [try] blocks,
    and resolves to [data] or throws what [cheerio.load] throws. *)
Lemma scrapeMetaTags_runs w u h :
  exists o evs,
    scrapeMetaTags w u h = (o, h ++ evs)
    /\ requests evs = []
    /\ match html_obtained evs with
       | Some html =>
           match cheerio_document w html with
           | inr markup =>
               exists data, o = Return (ScrapeData data)
                 /\ Tags.url data = u
                 /\ title data = cheerio_text w markup (lit "title")
           | inl e => o = Throw e
           end
       | None => exists errs, o = Return (ScrapeErrors errs)
       end
    /\ (length (filter is_fetch evs) <= 1)%nat
    /\ (length (filter is_render evs) <= 1)%nat.
Proof.
  unfold scrapeMetaTags.
  (* the direct fetch *)
  match goal with
  | |- exists o evs, bind ?c ?k h = _ /\ _ =>
      assert (Hfirst : exists html errors evs1,
                 c h = (Return (html, errors), h ++ evs1)
                 /\ requests evs1 = []
                 /\ omap html_of_event evs1 = (if js_truthy html then [html] else [])
                 /\ (length (filter is_fetch evs1) <= 1)%nat
                 /\ filter is_render evs1 = [])
  end.
  { unfold log_fetch_error.
    unfold try_catch, bind, lift, fetch, console_log, ret, throw.
    destruct (decodeURI w u) as [e | decoded].
    - destruct (err_response e), (err_request e);
        rewrite <- ?app_assoc; eexists _, _, _; (split; [reflexivity |]);
        repeat split; vm_compute; lia.
    - destruct (api_get w h (encodeURI w decoded)) as [data | data | e] eqn:Hget.
      + eexists _, _, _. split; [reflexivity |].
        cbn. destruct (truthy data); repeat split; vm_compute; lia.
      + eexists _, _, _. split; [reflexivity |].
        cbn. destruct (js_truthy data); repeat split; vm_compute; lia.
      + destruct (err_response e), (err_request e);
          rewrite <- ?app_assoc; eexists _, _, _; (split; [reflexivity |]);
          repeat split; vm_compute; lia. }
  destruct Hfirst as (html & errors & evs1 & Hrun1 & Hreq1 & Hhtml1 & Hfetch1 & Hrender1).
  erewrite bind_returns by exact Hrun1. cbv beta iota.
  (* the render, when the fetch left nothing *)
  match goal with
  | |- exists o evs, bind ?c ?k ?h1 = _ /\ _ =>
      assert (Hsecond : exists html' errors' evs2,
                 c h1 = (Return (html', errors'), h1 ++ evs2)
                 /\ requests evs2 = []
                 /\ (if js_truthy html then html' = html /\ evs2 = []
                     else omap html_of_event evs2
                          = (if js_truthy html' then [html'] else []))
                 /\ filter is_fetch evs2 = []
                 /\ (length (filter is_render evs2) <= 1)%nat)
  end.
  { destruct (js_truthy html) eqn:Htruthy.
    - exists html, errors, []. rewrite app_nil_r. repeat split. vm_compute. lia.
    - unfold bind, render, console_log, ret.
      destruct (puppeteer_render w (h ++ evs1) u) as [e | [outerHTML |] [e |]] eqn:Hr;
        rewrite <- ?(app_assoc (h ++ evs1));
        eexists _, _, _; (split; [reflexivity |]); cbn;
        rewrite ?Htruthy; repeat split; try (vm_compute; lia);
        try (destruct (truthy outerHTML); reflexivity). }
  destruct Hsecond as (html' & errors' & evs2 & Hrun2 & Hreq2 & Hhtml2 & Hfetch2 & Hrender2).
  erewrite bind_returns by exact Hrun2. cbv beta iota.
  assert (Hobtained : html_obtained (evs1 ++ evs2)
                      = if js_truthy html' then Some html' else None).
  { unfold html_obtained. rewrite omap_app, Hhtml1.
    destruct (js_truthy html) eqn:Htruthy.
    - destruct Hhtml2 as [-> ->]. now rewrite Htruthy.
    - rewrite Hhtml2. now destruct (js_truthy html'). }
  assert (Hbounds : requests (evs1 ++ evs2) = []
                    /\ (length (filter is_fetch (evs1 ++ evs2)) <= 1)%nat
                    /\ (length (filter is_render (evs1 ++ evs2)) <= 1)%nat).
  { unfold requests in *. rewrite !filter_app, !length_app.
    rewrite Hreq1, Hreq2, Hfetch2, Hrender1. cbn. repeat split; lia. }
  destruct Hbounds as (Hreq & Hfetch & Hrender).
  destruct (js_truthy html') eqn:Htruthy'.
  - unfold bind, lift.
    destruct (cheerio_document w html') as [e | markup] eqn:Hdoc.
    + eexists _, (evs1 ++ evs2). rewrite (app_assoc h evs1 evs2).
      split; [reflexivity |]. rewrite Hobtained, Hdoc. repeat split; assumption.
    + eexists _, (evs1 ++ evs2). rewrite (app_assoc h evs1 evs2).
      split; [reflexivity |]. rewrite Hobtained, Hdoc.
      split; [assumption |]. split; [| split; assumption].
      eexists. repeat split.
  - eexists _, (evs1 ++ evs2). rewrite (app_assoc h evs1 evs2).
    split; [reflexivity |]. rewrite Hobtained.
    split; [assumption |]. split; [| split; assumption].
    eexists. reflexivity.
Qed.

(** [scrapeMetaTags] only appends to the history, and what it appends
    holds no request to the provider. *)
Lemma scrapeMetaTags_appends w u : appends (fun evs => requests evs = []) (scrapeMetaTags w u).
Proof.
  intros h o h' Hrun.
  destruct (scrapeMetaTags_runs w u h) as (o' & evs & Hrun' & Hreq & _).
  rewrite Hrun' in Hrun. injection Hrun as _ <-. now exists evs.
Qed.

(** The [url] of the metadata is the argument. *)
Lemma scrapeMetaTags_url w u h data h' :
  scrapeMetaTags w u h = (Return (ScrapeData data), h') -> Tags.url data = u.
Proof.
  intros Hrun.
  destruct (scrapeMetaTags_runs w u h) as (o & evs & Hrun' & _ & Hres & _).
  rewrite Hrun' in Hrun. injection Hrun as -> _.
  destruct (html_obtained evs) as [html |].
  - destruct (cheerio_document w html); [discriminate Hres |].
    destruct Hres as (data' & [= <-] & Hurl & _). exact Hurl.
  - destruct Hres as (errs & [=]).
Qed.

(** ** Trimming and the special characters *)

Lemma trimStart_In c s : In c (trimStart s) -> In c s.
Proof.
  induction s as [| x s IH]; cbn; [tauto |].
  destruct (isWhiteSpace x); cbn; tauto.
Qed.

Lemma trimEnd_In c s : In c (trimEnd s) -> In c s.
Proof.
  revert c. induction s as [| x s IH]; intros c; cbn; [tauto |].
  destruct (trimEnd s) as [| y r] eqn:Hr.
  - destruct (isWhiteSpace x); cbn; tauto.
  - cbn. intros [-> | H]; [tauto |]. right. apply IH. exact H.
Qed.

Lemma trim_In c s : In c (trim s) -> In c s.
Proof. intros H. apply trimStart_In, trimEnd_In, H. Qed.

Lemma trimStart_head s c : head (trimStart s) = Some c -> isWhiteSpace c = false.
Proof.
  induction s as [| x s IH]; cbn; [discriminate |].
  destruct (isWhiteSpace x) eqn:Hx; [exact IH |].
  cbn. now intros [= <-].
Qed.

Lemma trimEnd_head s : head (trimEnd s) = None \/ head (trimEnd s) = head s.
Proof.
  destruct s as [| x s]; cbn; [now left |].
  destruct (trimEnd s); [destruct (isWhiteSpace x) |]; cbn; tauto.
Qed.

Lemma trimEnd_last s c : last (trimEnd s) = Some c -> isWhiteSpace c = false.
Proof.
  induction s as [| x s IH]; cbn; [discriminate |].
  destruct (trimEnd s) as [| y r] eqn:Hr.
  - destruct (isWhiteSpace x) eqn:Hx; cbn; [discriminate |].
    now intros [= <-].
  - cbn in *. exact IH.
Qed.

(** What [trim] returns neither starts nor ends with white space. *)
Lemma trim_ends s c :
  head (trim s) = Some c \/ last (trim s) = Some c -> isWhiteSpace c = false.
Proof.
  unfold trim. intros [H | H].
  - destruct (trimEnd_head (trimStart s)) as [E | E]; rewrite E in H;
      [discriminate | now apply trimStart_head in H].
  - now apply trimEnd_last in H.
Qed.

Lemma replace_special_In c s :
  In c (replace_special s) -> isSpecialChar c = false.
Proof.
  unfold replace_special. rewrite in_map_iff. intros (x & <- & _).
  destruct (isSpecialChar x) eqn:Hx; [reflexivity | exact Hx].
Qed.

Lemma replace_special_length s : length (replace_special s) = length s.
Proof. apply length_map. Qed.

(** The search string in one equation: the title, or the title without
    the matches of the root domain when that leaves something to search
    for, with the special characters blanked and the ends trimmed. *)
Lemma getImageSearchString_eq w title u sn :
  getImageSearchString w title u sn =
    trim (replace_special
      match as_truthy (psl_get w (extractHostname w u)) with
      | Some rootDomain =>
          if test_nonspace (remove_matches (RegExp_ig rootDomain) title)
          then remove_matches (RegExp_ig rootDomain) title
          else title
      | None => title
      end).
Proof. reflexivity. Qed.

(** ** Removing the matches of a pattern *)

Lemma remove_go_skip p k s : remove_go p k s = remove_go p 0 (drop k s).
Proof.
  revert k. induction s as [| c s IH]; intros [| k]; cbn; try reflexivity.
  apply IH.
Qed.

(** The scan of [replace] written out: at a match, drop it and go on
    behind it; otherwise keep one code unit. *)
Lemma remove_matches_step a p c s :
  remove_matches (a :: p) (c :: s) =
    if matches_at (a :: p) (c :: s)
    then remove_matches (a :: p) (drop (length (a :: p)) (c :: s))
    else c :: remove_matches (a :: p) s.
Proof.
  unfold remove_matches. cbn [remove_go].
  destruct (matches_at (a :: p) (c :: s)); [| reflexivity].
  cbn [length pred drop]. apply remove_go_skip.
Qed.

Lemma remove_matches_nil p : remove_matches p [] = [].
Proof. now destruct p. Qed.

(** ** Claims about the search string *)

(** C3, as the specification states it, fails. For the title
    "Example Site — Example" of a page of example.com the handler derives
    "Example Site   Example": the pattern is the root domain
    [example.com], which this title does not contain, so nothing is
    removed and the label [example] stays. *)
Lemma C3_label_is_not_removed :
  ~ (forall (w : World) (title u : jsstring) (sn : option jsstring)
            (rootDomain sld : jsstring),
       as_truthy (psl_get w (extractHostname w u)) = Some rootDomain ->
       as_truthy (parsed_sld (psl_parse w rootDomain)) = Some sld ->
       contains_ci sld title = true ->
       contains_ci sld (getImageSearchString w title u sn) = false
       /\ truthy (getImageSearchString w title u sn) = true).
Proof.
  intros H.
  destruct (H (world article (provider five ten))
              (lit "Example Site " ++ [EM_DASH] ++ lit " Example")
              (lit "https://example.com/article") None
              (lit "example.com") (lit "example")
              eq_refl eq_refl eq_refl) as [Hno _].
  vm_compute in Hno. discriminate Hno.
Qed.

(** C3, amended: what is removed from the title are the matches of the
    root domain read as a case-insensitive regular expression (in
    [example.com] the dot stands for any character), not the occurrences
    of its second-level label. The result of the removal is kept when it
    has a character that is not white space, the title is kept otherwise;
    then the special characters become spaces and the ends are trimmed.
    The search string so derived has no special character and neither
    starts nor ends with white space. *)
Theorem C3_search_string_derivation
    (w : World) (title u : jsstring) (sn : option jsstring) (rootDomain : jsstring) :
  as_truthy (psl_get w (extractHostname w u)) = Some rootDomain ->
  domain_pattern rootDomain = true ->
  let stripRootDomain := remove_matches (RegExp_ig rootDomain) title in
  let searchString := getImageSearchString w title u sn in
  searchString =
    trim (replace_special
            (if test_nonspace stripRootDomain then stripRootDomain else title))
  /\ (forall c, In c searchString -> isSpecialChar c = false)
  /\ (forall c, head searchString = Some c \/ last searchString = Some c ->
                isWhiteSpace c = false).
Proof.
  intros Hroot _ stripRootDomain searchString.
  subst searchString stripRootDomain.
  rewrite getImageSearchString_eq, Hroot.
  split; [reflexivity | split].
  - intros c Hc. apply trim_In in Hc. now apply replace_special_In in Hc.
  - intros c. apply trim_ends.
Qed.

Lemma C3_search_string_derivation_witness :
  getImageSearchString (world article (provider five ten))
    (lit "News | Example.COM") (lit "https://example.com/article") None
  = lit "News".
Proof.
  destruct (C3_search_string_derivation
              (world article (provider five ten))
              (lit "News | Example.COM") (lit "https://example.com/article")
              None (lit "example.com") eq_refl eq_refl) as (Heq & _).
  rewrite Heq. vm_compute. reflexivity.
Defined.

(** C4, as the specification states it, fails, whichever removal is
    meant. Removing the label [example] from " Example" leaves one space,
    and removing the matches of [example.com] from "example.com" leaves
    nothing; the search strings are "Example" and "example com", not the
    titles as scraped. *)
Lemma C4_fallback_title_is_still_stripped :
  ~ (forall (w : World) (title u : jsstring) (sn : option jsstring)
            (rootDomain sld : jsstring),
       as_truthy (psl_get w (extractHostname w u)) = Some rootDomain ->
       as_truthy (parsed_sld (psl_parse w rootDomain)) = Some sld ->
       test_nonspace (remove_matches (map Lit sld) title) = false ->
       getImageSearchString w title u sn = title)
  /\ ~ (forall (w : World) (title u : jsstring) (sn : option jsstring)
               (rootDomain : jsstring),
          as_truthy (psl_get w (extractHostname w u)) = Some rootDomain ->
          test_nonspace (remove_matches (RegExp_ig rootDomain) title) = false ->
          getImageSearchString w title u sn = title).
Proof.
  split; intros H.
  - specialize (H (world article (provider five ten))
                  (lit " Example") (lit "https://example.com/article") None
                  (lit "example.com") (lit "example")
                  eq_refl eq_refl eq_refl).
    vm_compute in H. discriminate H.
  - specialize (H (world article (provider five ten))
                  (lit "example.com") (lit "https://example.com/article") None
                  (lit "example.com") eq_refl eq_refl).
    vm_compute in H. discriminate H.
Qed.

(** C4, amended: when removing the matches of the root domain from the
    title leaves only white space or nothing, the search string is the
    original title with its special characters replaced by spaces and
    its ends trimmed. *)
Theorem C4_fallback_to_title
    (w : World) (title u : jsstring) (sn : option jsstring) (rootDomain : jsstring) :
  as_truthy (psl_get w (extractHostname w u)) = Some rootDomain ->
  domain_pattern rootDomain = true ->
  test_nonspace (remove_matches (RegExp_ig rootDomain) title) = false ->
  getImageSearchString w title u sn = trim (replace_special title).
Proof.
  intros Hroot _ Hblank.
  now rewrite getImageSearchString_eq, Hroot, Hblank.
Qed.

Lemma C4_fallback_to_title_witness :
  getImageSearchString (world article (provider five ten))
    (lit "example.com") (lit "https://example.com/article") None
  = lit "example com".
Proof.
  rewrite (C4_fallback_to_title (world article (provider five ten))
             (lit "example.com") (lit "https://example.com/article") None
             (lit "example.com") eq_refl eq_refl eq_refl).
  vm_compute. reflexivity.
Defined.

(** ** Runs of the handler *)

(** A validated GET request whose root domain resolves gets as far as the
    first image search. *)
Ltac enter_handler Hval Hget Hroot :=
  let raw := fresh "raw" in
  let Hq := fresh "Hq" in
  let Hd := fresh "Hd" in
  let Hv := fresh "Hv" in
  let dom := fresh "rootDomain" in
  let Hdom := fresh "Hdom" in
  let Herr := fresh "Herr" in
  let Hsld := fresh "Hsld" in
  destruct Hval as (raw & Hq & Hd & Hv);
  destruct Hroot as (dom & Hdom & Herr & Hsld);
  unfold handler; rewrite Hq; cbn [isString];
  rewrite Hd; cbn [lift]; rewrite bind_ret, Hv, Hget;
  rewrite Hdom, Herr, Hsld.

(** C5: when the root-domain search gave results, the scrape gave
    metadata with a title that is not blank, and the page-specific search
    resolves without results (the provider call failed), the handler
    answers 200 with [success: true], the root-domain images as
    [imageResults], the scraped [metaTags], and the error of the search
    in [errors]. *)
Theorem C5_page_search_failure_falls_back
    (w : World) (req : Request) (targetUrl sld : jsstring)
    (h h1 h2 h3 : list event)
    (rootSearch pageSearch : ImageSearch) (rs : list ImageResult)
    (data : MetaTags) :
  validated w req targetUrl ->
  is_GET (req_method req) = true ->
  root_resolves w targetUrl sld ->
  getBingImageSearch w sld h = (Return rootSearch, h1) ->
  results rootSearch = Some rs ->
  scrapeMetaTags w targetUrl h1 = (Return (ScrapeData data), h2) ->
  test_nonspace (title data) = true ->
  getBingImageSearch w
    (getImageSearchString w (title data) (Tags.url data) (siteName data)) h2
    = (Return pageSearch, h3) ->
  results pageSearch = None ->
  handler w req h =
    (Return
       {| status := 200;
          body :=
            {| success := true;
               result :=
                 Some {| metaTags := Some data;
                         imageSearch :=
                           getImageSearchString w (title data) (Tags.url data)
                             (siteName data);
                         imageResults := map AString (map contentUrl rs) |};
               error := None;
               errors := Some [search_error pageSearch] |} |},
     h3).
Proof.
  intros Hval Hget Hroot Hroot_search Hrs Hscrape Htitle Hpage Hnone.
  enter_handler Hval Hget Hroot.
  erewrite bind_returns; [| erewrite bind_returns by exact Hroot_search;
                            rewrite Hrs; reflexivity].
  cbv beta iota.
  erewrite bind_returns by exact Hscrape.
  cbv beta iota. rewrite Htitle.
  erewrite bind_returns by exact Hpage.
  rewrite Hnone. reflexivity.
Qed.

Lemma C5_page_search_failure_falls_back_witness :
  exists tr,
    handler (world article (provider five refused))
            (GET "https://example.com/article") []
    = (Return
         {| status := 200;
            body :=
              {| success := true;
                 result :=
                   Some {| metaTags :=
                             Some {| url := lit "https://example.com/article";
                                     title := article;
                                     favicon := None; description := None;
                                     image := None; author := None;
                                     siteName := None |};
                           imageSearch := lit "Example Article";
                           imageResults :=
                             map AString
                               (map contentUrl (images ["a"; "b"; "c"; "d"; "e"]%string)) |};
                 error := None;
                 errors :=
                   Some [AError (Error (lit "Request failed with status code 401"))] |} |},
       tr).
Proof.
  pose proof (C5_page_search_failure_falls_back
                (world article (provider five refused))
                (GET "https://example.com/article")
                (lit "https://example.com/article") (lit "example")
                [] _ _ _ _ _ _ _
                (ex_intro _ (lit "https://example.com/article")
                   (conj eq_refl (conj eq_refl eq_refl)))
                eq_refl
                (ex_intro _ (lit "example.com")
                   (conj eq_refl (conj eq_refl eq_refl)))
                eq_refl eq_refl eq_refl eq_refl eq_refl eq_refl)
    as Hrun.
  eexists. rewrite Hrun. reflexivity.
Defined.

Lemma requests_app evs1 evs2 : requests (evs1 ++ evs2) = requests evs1 ++ requests evs2.
Proof. apply filter_app. Qed.

Lemma requests_length evs : (length (requests evs) <= length evs)%nat.
Proof. apply length_filter. Qed.

(** C6: when the scrape gives metadata whose title is empty or all
    white space, the handler answers with the root-domain images and the
    run holds at most one provider request, the one of the root-domain
    branch: the page-specific search is not invoked. *)
Theorem C6_blank_title_skips_page_search
    (w : World) (req : Request) (targetUrl sld : jsstring)
    (h h1 h2 : list event) (rootSearch : ImageSearch) (data : MetaTags) :
  validated w req targetUrl ->
  is_GET (req_method req) = true ->
  root_resolves w targetUrl sld ->
  getBingImageSearch w sld h = (Return rootSearch, h1) ->
  scrapeMetaTags w targetUrl h1 = (Return (ScrapeData data), h2) ->
  test_nonspace (title data) = false ->
  let rootDomainImages :=
    match results rootSearch with
    | Some rs => map contentUrl rs
    | None => []
    end in
  let errors :=
    match results rootSearch with
    | Some _ => []
    | None => [search_error rootSearch]
    end in
  handler w req h =
    (Return
       {| status := 200;
          body :=
            {| success := true;
               result :=
                 Some {| metaTags := Some data;
                         imageSearch := sld;
                         imageResults := map AString rootDomainImages |};
               error := None;
               errors := Some errors |} |},
     h2)
  /\ exists evs, h2 = h ++ evs /\ (length (requests evs) <= 1)%nat.
Proof.
  intros Hval Hget Hroot Hroot_search Hscrape Htitle rootDomainImages errors.
  subst rootDomainImages errors. split.
  - enter_handler Hval Hget Hroot.
    destruct (results rootSearch) as [rs |] eqn:Hrs.
    all: erewrite bind_returns;
      [| erewrite bind_returns by exact Hroot_search; rewrite Hrs; reflexivity].
    all: cbv beta iota; erewrite bind_returns by exact Hscrape.
    all: cbv beta iota; rewrite Htitle; reflexivity.
  - destruct (getBingImageSearch_appends w sld h _ _ Hroot_search)
      as (evs1 & -> & Hlen & _).
    destruct (scrapeMetaTags_runs w targetUrl (h ++ evs1))
      as (r & evs2 & Hrun & Hnone & _).
    rewrite Hrun in Hscrape. injection Hscrape as _ <-.
    exists (evs1 ++ evs2). split; [now rewrite app_assoc |].
    rewrite requests_app, Hnone, app_nil_r.
    pose proof (requests_length evs1). lia.
Qed.

Lemma C6_blank_title_skips_page_search_witness :
  exists tr,
    handler (world (lit "  ") (provider five ten))
            (GET "https://example.com/article") []
    = (Return
         {| status := 200;
            body :=
              {| success := true;
                 result :=
                   Some {| metaTags :=
                             Some {| url := lit "https://example.com/article";
                                     title := lit "  ";
                                     favicon := None; description := None;
                                     image := None; author := None;
                                     siteName := None |};
                           imageSearch := lit "example";
                           imageResults :=
                             map AString
                               (map contentUrl (images ["a"; "b"; "c"; "d"; "e"]%string)) |};
                 error := None;
                 errors := Some [] |} |},
       tr)
    /\ length (requests tr) = 1%nat.
Proof.
  destruct (C6_blank_title_skips_page_search
              (world (lit "  ") (provider five ten))
              (GET "https://example.com/article")
              (lit "https://example.com/article") (lit "example")
              [] _ _ _ _
              (ex_intro _ (lit "https://example.com/article")
                 (conj eq_refl (conj eq_refl eq_refl)))
              eq_refl
              (ex_intro _ (lit "example.com")
                 (conj eq_refl (conj eq_refl eq_refl)))
              eq_refl eq_refl eq_refl)
    as [Hrun _].
  eexists. split.
  - rewrite Hrun. reflexivity.
  - reflexivity.
Defined.

(** ** The merge *)

(** Inserting one element with [splice] is [insert_at], the index
    clamped to the length. *)
Lemma splice_insert {A} (i : nat) (x : A) (l : list A) :
  splice (Z.of_nat i) 0 [x] l = insert_at (i `min` length l) x l.
Proof.
  unfold splice, insert_at.
  destruct (Z.ltb_spec (Z.of_nat i) 0) as [Hneg | _]; [lia |].
  replace (Z.min (Z.max 0 0) _) with 0%Z by lia.
  rewrite Z.add_0_r.
  replace (Z.to_nat (Z.min (Z.of_nat i) (Z.of_nat (length l))))
    with (i `min` length l)%nat by lia.
  reflexivity.
Qed.

Lemma insert_at_clamp {A} (i : nat) (x : A) (l : list A) :
  insert_at (i `min` length l) x l = insert_at i x l.
Proof.
  unfold insert_at.
  destruct (Nat.le_ge_cases i (length l)) as [Hle | Hge].
  - now rewrite Nat.min_l.
  - rewrite Nat.min_r by exact Hge.
    now rewrite !take_ge, !drop_ge by lia.
Qed.

Lemma insert_at_length {A} (i : nat) (x : A) (l : list A) :
  length (insert_at i x l) = S (length l).
Proof.
  unfold insert_at. rewrite length_app. cbn. rewrite length_take, length_drop. lia.
Qed.

(** The five splices are the five insertions of the merge policy. *)
Lemma splice_merge_spec (rootDomainImageUrls : list jsstring) (imageUrls : list jsany) :
  splice_merge rootDomainImageUrls imageUrls =
    spec_merge (array_get rootDomainImageUrls 0) (array_get rootDomainImageUrls 1)
               (array_get rootDomainImageUrls 2) (array_get rootDomainImageUrls 3)
               (array_get rootDomainImageUrls 4) imageUrls.
Proof.
  unfold splice_merge, spec_merge.
  change 2%Z with (Z.of_nat 2). change 5%Z with (Z.of_nat 5).
  change 10%Z with (Z.of_nat 10). change 15%Z with (Z.of_nat 15).
  change 20%Z with (Z.of_nat 20).
  now rewrite !splice_insert, !insert_at_clamp.
Qed.

(** Five elements are inserted whatever the root-domain search found. *)
Lemma splice_merge_length rootDomainImageUrls imageUrls :
  length (splice_merge rootDomainImageUrls imageUrls) = (length imageUrls + 5)%nat.
Proof.
  rewrite splice_merge_spec. unfold spec_merge.
  rewrite !insert_at_length. lia.
Qed.

Lemma insert_at_In {A} (i : nat) (x : A) (l : list A) : In x (insert_at i x l).
Proof. unfold insert_at. apply in_or_app. right. now left. Qed.

(** With fewer than five root-domain images the merged array holds
    [undefined]. *)
Lemma splice_merge_undefined rootDomainImageUrls imageUrls :
  (length rootDomainImageUrls < 5)%nat ->
  In AUndefined (splice_merge rootDomainImageUrls imageUrls).
Proof.
  intros Hlen. rewrite splice_merge_spec. unfold spec_merge.
  replace (array_get rootDomainImageUrls 4) with AUndefined.
  - apply insert_at_In.
  - unfold array_get. now rewrite lookup_ge_None_2 by lia.
Qed.

(** The full-success path: both searches gave results. *)
Lemma handler_merges
    (w : World) (req : Request) (targetUrl sld : jsstring)
    (h h1 h2 h3 : list event)
    (rootSearch pageSearch : ImageSearch) (rs ps : list ImageResult)
    (data : MetaTags) :
  validated w req targetUrl ->
  is_GET (req_method req) = true ->
  root_resolves w targetUrl sld ->
  getBingImageSearch w sld h = (Return rootSearch, h1) ->
  results rootSearch = Some rs ->
  scrapeMetaTags w targetUrl h1 = (Return (ScrapeData data), h2) ->
  test_nonspace (title data) = true ->
  getBingImageSearch w
    (getImageSearchString w (title data) (Tags.url data) (siteName data)) h2
    = (Return pageSearch, h3) ->
  results pageSearch = Some ps ->
  handler w req h =
    (Return
       {| status := 200;
          body :=
            {| success := true;
               result :=
                 Some {| metaTags := Some data;
                         imageSearch :=
                           getImageSearchString w (title data) (Tags.url data)
                             (siteName data);
                         imageResults :=
                           splice_merge (map contentUrl rs)
                             (map AString (map contentUrl ps)) |};
               error := None;
               errors := None |} |},
     h3).
Proof.
  intros Hval Hget Hroot Hroot_search Hrs Hscrape Htitle Hpage Hps.
  enter_handler Hval Hget Hroot.
  erewrite bind_returns; [| erewrite bind_returns by exact Hroot_search;
                            rewrite Hrs; reflexivity].
  cbv beta iota.
  erewrite bind_returns by exact Hscrape.
  cbv beta iota. rewrite Htitle.
  erewrite bind_returns by exact Hpage.
  rewrite Hps. cbv beta iota zeta.
  rewrite <- (map_map contentUrl AString). reflexivity.
Qed.

(** C1: with five root-domain images [a..e] and ten page-specific
    images [p0..p9] the handler answers with the page-specific images
    after the insertions of [a] at 2, [b] at 5, [c] at 10, [d] at 15 and
    [e] at 20, each on the sequence as grown so far. The sequence has 13
    elements when [d] is inserted and 14 when [e] is, so both go to its
    end. *)
Theorem C1_merge_five_into_ten
    (w : World) (req : Request) (targetUrl sld : jsstring)
    (h h1 h2 h3 : list event)
    (rootSearch pageSearch : ImageSearch) (rs ps : list ImageResult)
    (data : MetaTags)
    (a b c d e p0 p1 p2 p3 p4 p5 p6 p7 p8 p9 : jsstring) :
  validated w req targetUrl ->
  is_GET (req_method req) = true ->
  root_resolves w targetUrl sld ->
  getBingImageSearch w sld h = (Return rootSearch, h1) ->
  results rootSearch = Some rs ->
  map contentUrl rs = [a; b; c; d; e] ->
  scrapeMetaTags w targetUrl h1 = (Return (ScrapeData data), h2) ->
  test_nonspace (title data) = true ->
  getBingImageSearch w
    (getImageSearchString w (title data) (Tags.url data) (siteName data)) h2
    = (Return pageSearch, h3) ->
  results pageSearch = Some ps ->
  map contentUrl ps = [p0; p1; p2; p3; p4; p5; p6; p7; p8; p9] ->
  let merged :=
    spec_merge (AString a) (AString b) (AString c) (AString d) (AString e)
      (map AString [p0; p1; p2; p3; p4; p5; p6; p7; p8; p9]) in
  handler w req h =
    (Return
       {| status := 200;
          body :=
            {| success := true;
               result :=
                 Some {| metaTags := Some data;
                         imageSearch :=
                           getImageSearchString w (title data) (Tags.url data)
                             (siteName data);
                         imageResults := merged |};
               error := None;
               errors := None |} |},
     h3)
  /\ merged =
       map AString [p0; p1; a; p2; p3; b; p4; p5; p6; p7; c; p8; p9; d; e].
Proof.
  intros Hval Hget Hroot Hroot_search Hrs Hfive Hscrape Htitle Hpage Hps Hten merged.
  subst merged. split; [| reflexivity].
  rewrite (handler_merges w req targetUrl sld h h1 h2 h3 rootSearch pageSearch
             rs ps data) by assumption.
  rewrite splice_merge_spec, Hfive, Hten. reflexivity.
Qed.

Lemma C1_merge_five_into_ten_witness :
  exists r tr,
    handler (world article (provider five ten))
            (GET "https://example.com/article") []
    = (Return {| status := 200;
                 body := {| success := true; result := Some r;
                            error := None; errors := None |} |}, tr)
    /\ imageResults r =
         map AString
           (map contentUrl
              (images ["p0"; "p1"; "a"; "p2"; "p3"; "b"; "p4"; "p5"; "p6";
                       "p7"; "c"; "p8"; "p9"; "d"; "e"]%string)).
Proof.
  destruct (C1_merge_five_into_ten
              (world article (provider five ten))
              (GET "https://example.com/article")
              (lit "https://example.com/article") (lit "example")
              [] _ _ _ _ _ _ _ _
              _ _ _ _ _ _ _ _ _ _ _ _ _ _ _
              (ex_intro _ (lit "https://example.com/article")
                 (conj eq_refl (conj eq_refl eq_refl)))
              eq_refl
              (ex_intro _ (lit "example.com")
                 (conj eq_refl (conj eq_refl eq_refl)))
              eq_refl eq_refl eq_refl eq_refl eq_refl eq_refl eq_refl eq_refl)
    as [Hrun Hmerged].
  eexists _, _. split; [exact Hrun |].
  cbn [imageResults]. rewrite Hmerged. reflexivity.
Defined.

(** C2 does not hold of the code: with one root-domain image and three
    page-specific images the handler answers with eight entries, four of
    them [undefined], where the claim has four entries and no
    placeholder. Lines 62 to 66 splice [rootDomainImageUrls[i]] in
    without looking at the length of the array. *)
Theorem C2_short_root_list_inserts_undefined :
  let one := ProviderData (Some (images ["a"]%string)) in
  let three := ProviderData (Some (images ["p0"; "p1"; "p2"]%string)) in
  exists r tr,
    handler (world article (provider one three))
            (GET "https://example.com/article") []
    = (Return {| status := 200;
                 body := {| success := true; result := Some r;
                            error := None; errors := None |} |}, tr)
    /\ imageResults r =
         [AString (contentUrl (img "p0")); AString (contentUrl (img "p1"));
          AString (contentUrl (img "a")); AString (contentUrl (img "p2"));
          AUndefined; AUndefined; AUndefined; AUndefined]
    /\ In AUndefined (imageResults r)
    /\ length (imageResults r) <> (3 + 1)%nat.
Proof.
  intros one three. eexists _, _.
  split; [vm_compute; reflexivity |].
  cbn [imageResults].
  split; [reflexivity |].
  split; [cbn; tauto | cbn; lia].
Qed.

(** ** Root-domain resolution *)

(** A hostname without registrable domain, a parser error and a domain
    without second-level label each make the handler throw before any
    event: nothing is scraped and no response is produced. *)
Lemma root_failure_aborts
    (w : World) (req : Request) (targetUrl : jsstring) (h : list event) :
  validated w req targetUrl ->
  is_GET (req_method req) = true ->
  root_fails w targetUrl ->
  exists e, handler w req h = (Throw e, h).
Proof.
  intros (raw & Hq & Hd & Hv) Hget Hfail.
  unfold handler. rewrite Hq. cbn [isString].
  rewrite Hd. cbn [lift]. rewrite bind_ret, Hv, Hget.
  destruct Hfail as [Hnone | (rootDomain & Hdom & [Herr | Hsld])].
  - rewrite Hnone. eexists. reflexivity.
  - rewrite Hdom.
    destruct (parsed_error (psl_parse w rootDomain)); [| congruence].
    eexists. reflexivity.
  - rewrite Hdom, Hsld.
    destruct (parsed_error (psl_parse w rootDomain)); eexists; reflexivity.
Qed.

(** C7 does not hold of the code: a validated GET request whose root
    domain resolves can still be left without a response. When the page
    is a JSON document holding the number 42, the HTTP client hands the
    number over, it is truthy, and [cheerio.load] throws on it outside
    the two [try] blocks of [scrapeMetaTags]; when the title holds a
    lone surrogate, [encodeURIComponent] throws before the [try] of
    [getBingImageSearch]. In both runs the handler throws after the
    root-domain search, where the claim has a 200. *)
Theorem C7_resolved_request_is_left_unanswered :
  let targetUrl := lit "https://example.com/data.json" in
  let req := GET "https://example.com/data.json" in
  (validated (json_page article (provider five ten)) req targetUrl
   /\ root_resolves (json_page article (provider five ten)) targetUrl (lit "example")
   /\ exists tr,
        handler (json_page article (provider five ten)) req []
          = (Throw type_error, tr)
        /\ length (requests tr) = 1%nat)
  /\ (validated (world [55296] (provider five ten)) req targetUrl
      /\ root_resolves (world [55296] (provider five ten)) targetUrl (lit "example")
      /\ exists tr,
           handler (world [55296] (provider five ten)) req []
             = (Throw URIError, tr)
           /\ length (requests tr) = 1%nat).
Proof.
  intros targetUrl req. split; (split; [| split]).
  - exists targetUrl. repeat split.
  - exists (lit "example.com"). repeat split.
  - eexists. split; [vm_compute; reflexivity | reflexivity].
  - exists targetUrl. repeat split.
  - exists (lit "example.com"). repeat split.
  - eexists. split; [vm_compute; reflexivity | reflexivity].
Qed.

(** ** The scraper *)

(** C8 does not hold of the code: the failures of the fetch and of the
    render are caught, but [scrapeMetaTags] throws all the same when the
    body it fetched is truthy and not a string. [html] is of type [any],
    and [cheerio.load(html)] stands behind both [try] blocks: on the
    number 42 of a JSON page it throws, and the function rejects where
    the claim has it return [{ data }] or [{ errors }]. *)
Theorem C8_scrapeMetaTags_throws_on_a_JSON_body :
  scrapeMetaTags (json_page article (provider five ten))
    (lit "https://example.com/data.json") []
  = (Throw type_error,
     [EvFetch (lit "https://example.com/data.json") (FetchOther (ANumber 42))]).
Proof. vm_compute. reflexivity. Qed.

(** C10: the [url] of the metadata is the string [scrapeMetaTags] was
    called with, and so, in every response of the handler that carries
    [metaTags], the validated target URL. *)
Theorem C10_metaTags_url_is_target
    (w : World) (targetUrl : jsstring) :
  (forall h data h',
     scrapeMetaTags w targetUrl h = (Return (ScrapeData data), h') ->
     Tags.url data = targetUrl)
  /\ (forall req h resp h' r tags,
        validated w req targetUrl ->
        handler w req h = (Return resp, h') ->
        result (body resp) = Some r ->
        metaTags r = Some tags ->
        Tags.url tags = targetUrl).
Proof.
  split; [intros h data h'; apply scrapeMetaTags_url |].
  intros req h resp h' r tags (raw & Hq & Hd & Hv).
  unfold handler. rewrite Hq. cbn [isString].
  rewrite Hd. cbn [lift]. rewrite bind_ret, Hv.
  destruct (is_GET (req_method req));
    [| intros [= <- <-]; cbn; discriminate].
  destruct (as_truthy (psl_get w (extractHostname w targetUrl))) as [rootDomain |];
    [| rewrite bind_throw; discriminate].
  destruct (parsed_error (psl_parse w rootDomain));
    [rewrite bind_throw; discriminate |].
  destruct (as_truthy (parsed_sld (psl_parse w rootDomain))) as [sld |];
    [| rewrite bind_throw; discriminate].
  destruct (getBingImageSearch_outcome w sld h)
    as [(rootSearch & h1 & Hroot_search) | (_ & _ & Hthrow)];
    [| erewrite bind_throws by (erewrite bind_throws by exact Hthrow; reflexivity);
       discriminate].
  destruct (scrapeMetaTags_runs w targetUrl h1) as (scraped & evs & Hscrape & _).
  destruct (results rootSearch) as [rs |] eqn:Hrs.
  all: erewrite bind_returns;
    [| erewrite bind_returns by exact Hroot_search; rewrite Hrs; reflexivity].
  all: cbv beta iota.
  all: destruct scraped as [[data | tags_errors] | e];
    [erewrite bind_returns by exact Hscrape
    | erewrite bind_returns by exact Hscrape;
      intros [= <- <-]; cbn; intros [= <-]; cbn; discriminate
    | erewrite bind_throws by exact Hscrape; discriminate].
  all: apply scrapeMetaTags_url in Hscrape.
  all: cbv beta iota; destruct (test_nonspace (title data));
    [| intros [= <- <-]; cbn; intros [= <-]; cbn; congruence].
  all: match goal with
       | |- context [bind (getBingImageSearch ?w' ?q) _ ?h2] =>
           destruct (getBingImageSearch_outcome w' q h2)
             as [(pageSearch & h3 & Hpage) | (_ & _ & Hpage)]
       end.
  all: try (erewrite bind_throws by exact Hpage; discriminate).
  all: erewrite bind_returns by exact Hpage.
  all: destruct (results pageSearch);
    intros [= <- <-]; cbn; intros [= <-]; cbn; congruence.
Qed.

Lemma C10_metaTags_url_is_target_witness :
  exists r tags tr,
    handler (world article (provider five ten))
            (GET "https://example.com/article") []
    = (Return {| status := 200;
                 body := {| success := true; result := Some r;
                            error := None; errors := None |} |}, tr)
    /\ metaTags r = Some tags
    /\ Tags.url tags = lit "https://example.com/article".
Proof.
  eexists _, _, _. split; [vm_compute; reflexivity |].
  split; [reflexivity |].
  eapply (proj2 (C10_metaTags_url_is_target
                   (world article (provider five ten))
                   (lit "https://example.com/article"))
            (GET "https://example.com/article") [] _ _ _ _
            (ex_intro _ (lit "https://example.com/article")
               (conj eq_refl (conj eq_refl eq_refl)))).
  - vm_compute. reflexivity.
  - reflexivity.
  - reflexivity.
Defined.

(** ** The method *)

(** C9, as the specification states it, fails: the method is looked at
    inside the branch of a valid URL. A POST request whose parameter
    decodes to [ftp://example.com/article] is answered 400, "Invalid web
    url", not with the method-not-allowed response. *)
Lemma C9_invalid_url_answered_before_method :
  ~ (forall (w : World) (req : Request) (h : list event),
       is_GET (req_method req) = false ->
       exists tr,
         handler w req h =
           (Return
              {| status := 404;
                 body :=
                   {| success := false; result := None;
                      error := Some (lit "Method " ++ method_text (req_method req)
                                       ++ lit " not allowed");
                      errors := None |} |},
            tr)).
Proof.
  intros H.
  destruct (H (world article (provider five ten))
              (POST "ftp://example.com/article") [] eq_refl) as [tr Hrun].
  vm_compute in Hrun. discriminate Hrun.
Qed.

(** C9, amended: a request with a method other than GET whose [url]
    parameter is one string that decodes is answered without any event;
    with the method-not-allowed response (status 404) when the decoded
    URL is a valid web URL, and with the invalid-URL response (status
    400) when it is not. *)
Theorem C9_method_checked_after_validation
    (w : World) (req : Request) (raw targetUrl : jsstring) (h : list event) :
  req_query_url req = QString raw ->
  decodeURIComponent w (base64_decode w raw) = inr targetUrl ->
  is_GET (req_method req) = false ->
  handler w req h =
    (Return
       (if isValidWebUrl w targetUrl then
          {| status := 404;
             body :=
               {| success := false; result := None;
                  error := Some (lit "Method " ++ method_text (req_method req)
                                   ++ lit " not allowed");
                  errors := None |} |}
        else
          {| status := 400;
             body :=
               {| success := false; result := None;
                  error := Some (lit "Invalid web url");
                  errors := None |} |}),
     h).
Proof.
  intros Hq Hd Hmethod.
  unfold handler. rewrite Hq. cbn [isString].
  rewrite Hd. cbn [lift]. rewrite bind_ret, Hmethod.
  destruct (isValidWebUrl w targetUrl); reflexivity.
Qed.

Lemma C9_method_checked_after_validation_witness :
  handler (world article (provider five ten))
          (POST "https://example.com/article") []
  = (Return
       {| status := 404;
          body :=
            {| success := false; result := None;
               error := Some (lit "Method POST not allowed");
               errors := None |} |},
     []).
Proof.
  rewrite (C9_method_checked_after_validation
             (world article (provider five ten))
             (POST "https://example.com/article")
             (lit "https://example.com/article")
             (lit "https://example.com/article") []
             eq_refl eq_refl eq_refl).
  reflexivity.
Defined.

(** ** The interleaving helper [mergeImageUrls] *)

Lemma array_get_lookup arr i s : arr !! i = Some s -> array_get arr i = AString s.
Proof. unfold array_get. now intros ->. Qed.

(** The loop appends the first [n] pairs from index [i] on. *)
Lemma merge_loop_alternate array1 array2 n :
  forall i imageUrls,
    (i + n <= length array1)%nat -> (i + n <= length array2)%nat ->
    merge_loop array1 array2 n i imageUrls =
      imageUrls
        ++ map AString (alternate (take n (drop i array1)) (take n (drop i array2))).
Proof.
  induction n as [| n IH]; intros i imageUrls H1 H2; cbn [merge_loop].
  - now rewrite !take_0, app_nil_r.
  - destruct (lookup_lt_is_Some_2 array1 i) as [x Hx]; [lia |].
    destruct (lookup_lt_is_Some_2 array2 i) as [y Hy]; [lia |].
    rewrite IH by lia.
    rewrite (drop_S array1 x i Hx), (drop_S array2 y i Hy).
    rewrite (array_get_lookup _ _ _ Hx), (array_get_lookup _ _ _ Hy).
    cbn. now rewrite <- app_assoc.
Qed.

Lemma mergeImageUrls_alternate array1 array2 :
  let l := Nat.min (length array1) (length array2) in
  mergeImageUrls array1 array2 =
    map AString (alternate (take l array1) (take l array2)
                   ++ drop l array1 ++ drop l array2).
Proof.
  intros l. unfold mergeImageUrls, slice. fold l.
  rewrite merge_loop_alternate by (subst l; cbn; lia).
  rewrite !drop_0. cbn [app]. now rewrite !map_app.
Qed.

Lemma alternate_length {A} (xs ys : list A) :
  length (alternate xs ys) = (2 * Nat.min (length xs) (length ys))%nat.
Proof.
  revert ys. induction xs as [| x xs IH]; intros [| y ys]; cbn; try reflexivity.
  rewrite IH. lia.
Qed.

Lemma alternate_perm {A} (xs ys : list A) :
  length xs = length ys -> alternate xs ys ≡ₚ xs ++ ys.
Proof.
  revert ys. induction xs as [| x xs IH]; intros [| y ys] Hlen; cbn in *;
    try discriminate; [reflexivity |].
  rewrite IH by lia. now rewrite Permutation_middle.
Qed.

Lemma alternate_lookup {A} (xs ys : list A) i :
  (i < Nat.min (length xs) (length ys))%nat ->
  alternate xs ys !! (2 * i)%nat = xs !! i
  /\ alternate xs ys !! (2 * i + 1)%nat = ys !! i.
Proof.
  revert ys i. induction xs as [| x xs IH]; intros [| y ys] i Hi;
    cbn [length Nat.min] in Hi; try lia.
  destruct i as [| i]; [now split |].
  replace (2 * S i)%nat with (S (S (2 * i))) by lia.
  replace (S (S (2 * i)) + 1)%nat with (S (S (2 * i + 1))) by lia.
  cbn -[Nat.mul]. apply IH. lia.
Qed.

(** X1: [mergeImageUrls] returns as many entries as the two arrays
    hold together. *)
Theorem X1_mergeImageUrls_length (array1 array2 : list jsstring) :
  length (mergeImageUrls array1 array2) = (length array1 + length array2)%nat.
Proof.
  rewrite mergeImageUrls_alternate, length_map, !length_app, alternate_length.
  rewrite !length_take, !length_drop. lia.
Qed.

(** X2: [mergeImageUrls] returns the URLs of the two arrays, each as
    often as it occurs in them, and no [undefined]: its result is a
    rearrangement of [array1] followed by [array2]. *)
Theorem X2_mergeImageUrls_rearranges (array1 array2 : list jsstring) :
  exists urls,
    mergeImageUrls array1 array2 = map AString urls
    /\ urls ≡ₚ array1 ++ array2.
Proof.
  eexists. split; [apply mergeImageUrls_alternate |].
  cbn zeta. set (l := Nat.min (length array1) (length array2)).
  rewrite alternate_perm by (rewrite !length_take; subst l; lia).
  rewrite <- (take_drop l array1) at 3. rewrite <- (take_drop l array2) at 3.
  rewrite <- !app_assoc. apply Permutation_app_head.
  rewrite !app_assoc. apply Permutation_app_tail. apply Permutation_app_comm.
Qed.

(** X3: up to the length of the shorter array the result alternates:
    entry [2i] is [array1[i]] and entry [2i+1] is [array2[i]]. *)
Theorem X3_mergeImageUrls_alternates (array1 array2 : list jsstring) (i : nat) :
  (i < Nat.min (length array1) (length array2))%nat ->
  mergeImageUrls array1 array2 !! (2 * i)%nat = AString <$> array1 !! i
  /\ mergeImageUrls array1 array2 !! (2 * i + 1)%nat = AString <$> array2 !! i.
Proof.
  intros Hi. rewrite mergeImageUrls_alternate. cbn zeta.
  set (l := Nat.min (length array1) (length array2)) in *.
  rewrite !list_lookup_fmap.
  assert (Hl : (i < Nat.min (length (take l array1)) (length (take l array2)))%nat)
    by (rewrite !length_take; lia).
  destruct (alternate_lookup (take l array1) (take l array2) i Hl) as [He Ho].
  rewrite !lookup_app_l by (rewrite alternate_length, !length_take; lia).
  rewrite He, Ho, !lookup_take_lt by lia. now split.
Qed.

Lemma X3_mergeImageUrls_alternates_witness :
  mergeImageUrls [lit "a"; lit "b"; lit "c"] [lit "x"; lit "y"] !! 2%nat
    = Some (AString (lit "b"))
  /\ mergeImageUrls [lit "a"; lit "b"; lit "c"] [lit "x"; lit "y"] !! 3%nat
     = Some (AString (lit "y")).
Proof.
  apply (X3_mergeImageUrls_alternates
           [lit "a"; lit "b"; lit "c"] [lit "x"; lit "y"] 1).
  cbn. lia.
Defined.

(** X4: behind the alternating part comes what is left of the longer
    array, in its order. *)
Theorem X4_mergeImageUrls_rest (array1 array2 : list jsstring) :
  let l := Nat.min (length array1) (length array2) in
  drop (2 * l) (mergeImageUrls array1 array2)
    = map AString (drop l array1 ++ drop l array2)
  /\ (drop l array1 = [] \/ drop l array2 = []).
Proof.
  intros l. split.
  - rewrite mergeImageUrls_alternate. fold l.
    rewrite map_app, drop_app_length'; [reflexivity |].
    rewrite length_map, alternate_length, !length_take. subst l. lia.
  - destruct (Nat.le_ge_cases (length array1) (length array2)).
    + left. apply drop_ge. subst l. lia.
    + right. apply drop_ge. subst l. lia.
Qed.

(** ** Requests the handler turns down *)

(** X5: a request whose [url] parameter is absent or given several
    times is answered 400, "Only one url can be checked", whatever its
    method, and nothing is decoded, fetched or searched. *)
Theorem X5_url_parameter_must_be_one_string
    (w : World) (req : Request) (h : list event) :
  (forall s, req_query_url req <> QString s) ->
  handler w req h =
    (Return
       {| status := 400;
          body := {| success := false; result := None;
                     error := Some (lit "Only one url can be checked");
                     errors := None |} |},
     h).
Proof.
  intros Hnot. unfold handler.
  destruct (req_query_url req) as [| s | l]; [reflexivity | | reflexivity].
  now destruct (Hnot s).
Qed.

Lemma X5_url_parameter_must_be_one_string_witness :
  handler (world article (provider five ten))
    {| req_method := Some (lit "GET");
       req_query_url := QArray [lit "https://a.example/"; lit "https://b.example/"] |}
    []
  = (Return
       {| status := 400;
          body := {| success := false; result := None;
                     error := Some (lit "Only one url can be checked");
                     errors := None |} |},
     []).
Proof.
  apply (X5_url_parameter_must_be_one_string
           (world article (provider five ten))
           {| req_method := Some (lit "GET");
              req_query_url := QArray [lit "https://a.example/"; lit "https://b.example/"] |}
           []).
  intros s. cbn. discriminate.
Defined.

(** X6: when the decoded parameter is not a valid web URL the request
    is answered 400, "Invalid web url", whatever its method, before the
    domain is looked at and without any network call. *)
Theorem X6_invalid_url_is_rejected_without_io
    (w : World) (req : Request) (raw targetUrl : jsstring) (h : list event) :
  req_query_url req = QString raw ->
  decodeURIComponent w (base64_decode w raw) = inr targetUrl ->
  isValidWebUrl w targetUrl = false ->
  handler w req h =
    (Return
       {| status := 400;
          body := {| success := false; result := None;
                     error := Some (lit "Invalid web url");
                     errors := None |} |},
     h).
Proof.
  intros Hq Hd Hv. unfold handler. rewrite Hq. cbn [isString].
  rewrite Hd. cbn [lift]. now rewrite bind_ret, Hv.
Qed.

Lemma X6_invalid_url_is_rejected_without_io_witness :
  handler (world article (provider five ten)) (GET "javascript:alert(1)") []
  = (Return
       {| status := 400;
          body := {| success := false; result := None;
                     error := Some (lit "Invalid web url");
                     errors := None |} |},
     []).
Proof.
  apply (X6_invalid_url_is_rejected_without_io
           (world article (provider five ten)) (GET "javascript:alert(1)")
           (lit "javascript:alert(1)") (lit "javascript:alert(1)") []
           eq_refl eq_refl eq_refl).
Defined.

(** X7: when [decodeURIComponent] throws on the parameter, the handler
    throws that error: the request gets no response of the handler, not
    even the 400 of an invalid URL, and nothing else happens. *)
Theorem X7_undecodable_parameter_throws
    (w : World) (req : Request) (raw : jsstring) (e : js_error) (h : list event) :
  req_query_url req = QString raw ->
  decodeURIComponent w (base64_decode w raw) = inl e ->
  handler w req h = (Throw e, h).
Proof.
  intros Hq Hd. unfold handler. rewrite Hq. cbn [isString].
  rewrite Hd. cbn [lift]. now rewrite bind_throw.
Qed.

Lemma X7_undecodable_parameter_throws_witness :
  handler undecodable (GET "%E0%A4%A") [] = (Throw malformed, []).
Proof.
  apply (X7_undecodable_parameter_throws undecodable (GET "%E0%A4%A")
           (lit "%E0%A4%A") malformed [] eq_refl eq_refl).
Defined.

(** X8: the three ways the root domain fails to resolve throw three
    different errors: "Root domain not found" without a registrable
    domain, the serialized error of the parser, and "sld not found"
    without a second-level label. *)
Theorem X8_root_domain_errors
    (w : World) (req : Request) (targetUrl : jsstring) (h : list event) :
  validated w req targetUrl ->
  is_GET (req_method req) = true ->
  (as_truthy (psl_get w (extractHostname w targetUrl)) = None ->
   handler w req h = (Throw (Error (lit "Root domain not found")), h))
  /\ (forall rootDomain e,
        as_truthy (psl_get w (extractHostname w targetUrl)) = Some rootDomain ->
        parsed_error (psl_parse w rootDomain) = Some e ->
        handler w req h = (Throw (Error (JSON_stringify w e)), h))
  /\ (forall rootDomain,
        as_truthy (psl_get w (extractHostname w targetUrl)) = Some rootDomain ->
        parsed_error (psl_parse w rootDomain) = None ->
        as_truthy (parsed_sld (psl_parse w rootDomain)) = None ->
        handler w req h = (Throw (Error (lit "sld not found")), h)).
Proof.
  intros (raw & Hq & Hd & Hv) Hget.
  repeat split.
  - intros Hnone. unfold handler. rewrite Hq. cbn [isString].
    rewrite Hd. cbn [lift]. now rewrite bind_ret, Hv, Hget, Hnone.
  - intros rootDomain e Hdom Herr. unfold handler. rewrite Hq. cbn [isString].
    rewrite Hd. cbn [lift]. now rewrite bind_ret, Hv, Hget, Hdom, Herr.
  - intros rootDomain Hdom Herr Hsld. unfold handler. rewrite Hq. cbn [isString].
    rewrite Hd. cbn [lift]. now rewrite bind_ret, Hv, Hget, Hdom, Herr, Hsld.
Qed.

Lemma X8_root_domain_errors_witness :
  handler (world article (provider five ten)) (GET "https://localhost/article") []
  = (Throw (Error (lit "Root domain not found")), []).
Proof.
  apply (X8_root_domain_errors
           (world article (provider five ten)) (GET "https://localhost/article")
           (lit "https://localhost/article") []
           (ex_intro _ (lit "https://localhost/article")
              (conj eq_refl (conj eq_refl eq_refl)))
           eq_refl).
  reflexivity.
Defined.

(** ** The other answers to a resolved request *)

(** The root-domain branch of a resolved request, in one step. *)
Ltac root_branch Hroot_search :=
  unfold root_images, root_errors;
  match type of Hroot_search with
  | _ = (Return ?rootSearch, _) =>
      let rs := fresh "rs" in
      let Hrs := fresh "Hrs" in
      destruct (results rootSearch) as [rs |] eqn:Hrs;
      (erewrite bind_returns;
       [| erewrite bind_returns by exact Hroot_search; rewrite Hrs; reflexivity]);
      cbv beta iota
  end.

(** X9: when the scrape obtains no HTML, the handler still answers 200
    with [success: true]: the result has no [metaTags], its
    [imageSearch] is the second-level label, its [imageResults] are the
    root-domain images, and the errors of the scraper are the last entry
    of [errors], as one array. The page-specific search is not made. *)
Theorem X9_scrape_failure_falls_back
    (w : World) (req : Request) (targetUrl sld : jsstring)
    (h h1 h2 : list event) (rootSearch : ImageSearch)
    (scrape_errors : list js_error) :
  validated w req targetUrl ->
  is_GET (req_method req) = true ->
  root_resolves w targetUrl sld ->
  getBingImageSearch w sld h = (Return rootSearch, h1) ->
  scrapeMetaTags w targetUrl h1 = (Return (ScrapeErrors scrape_errors), h2) ->
  handler w req h =
    (Return
       {| status := 200;
          body :=
            {| success := true;
               result :=
                 Some {| metaTags := None;
                         imageSearch := sld;
                         imageResults := map AString (root_images rootSearch) |};
               error := None;
               errors :=
                 Some (root_errors rootSearch
                         ++ [AArray (map AError scrape_errors)]) |} |},
     h2)
  /\ exists evs, h2 = h ++ evs /\ (length (requests evs) <= 1)%nat.
Proof.
  intros Hval Hget Hroot Hroot_search Hscrape. split.
  - enter_handler Hval Hget Hroot.
    root_branch Hroot_search.
    all: erewrite bind_returns by exact Hscrape; reflexivity.
  - destruct (getBingImageSearch_appends w sld h _ _ Hroot_search)
      as (evs1 & -> & Hlen & _).
    destruct (scrapeMetaTags_runs w targetUrl (h ++ evs1))
      as (r & evs2 & Hrun & Hnone & _).
    rewrite Hrun in Hscrape. injection Hscrape as _ <-.
    exists (evs1 ++ evs2). split; [now rewrite app_assoc |].
    rewrite requests_app, Hnone, app_nil_r.
    pose proof (requests_length evs1). lia.
Qed.

Lemma X9_scrape_failure_falls_back_witness :
  exists tr,
    handler (offline article (provider five ten))
            (GET "https://example.com/article") []
    = (Return
         {| status := 200;
            body :=
              {| success := true;
                 result :=
                   Some {| metaTags := None;
                           imageSearch := lit "example";
                           imageResults :=
                             map AString
                               (map contentUrl (images ["a"; "b"; "c"; "d"; "e"]%string)) |};
                 error := None;
                 errors := Some [AArray [AError timed_out; AError crashed]] |} |},
       tr).
Proof.
  destruct (X9_scrape_failure_falls_back
              (offline article (provider five ten))
              (GET "https://example.com/article")
              (lit "https://example.com/article") (lit "example")
              [] _ _ _ _
              (ex_intro _ (lit "https://example.com/article")
                 (conj eq_refl (conj eq_refl eq_refl)))
              eq_refl
              (ex_intro _ (lit "example.com")
                 (conj eq_refl (conj eq_refl eq_refl)))
              eq_refl eq_refl)
    as [Hrun _].
  eexists. rewrite Hrun. reflexivity.
Defined.

(** X10: a title that is not blank can still give an empty search
    string (a title of special characters only). Then no second request
    is made: the handler answers with the root-domain images, an empty
    [imageSearch], and "No search string for image" as the last entry of
    [errors]. *)
Theorem X10_empty_search_string_makes_no_request
    (w : World) (req : Request) (targetUrl sld : jsstring)
    (h h1 h2 : list event) (rootSearch : ImageSearch) (data : MetaTags) :
  validated w req targetUrl ->
  is_GET (req_method req) = true ->
  root_resolves w targetUrl sld ->
  getBingImageSearch w sld h = (Return rootSearch, h1) ->
  scrapeMetaTags w targetUrl h1 = (Return (ScrapeData data), h2) ->
  test_nonspace (title data) = true ->
  getImageSearchString w (title data) (Tags.url data) (siteName data) = [] ->
  handler w req h =
    (Return
       {| status := 200;
          body :=
            {| success := true;
               result :=
                 Some {| metaTags := Some data;
                         imageSearch := [];
                         imageResults := map AString (root_images rootSearch) |};
               error := None;
               errors :=
                 Some (root_errors rootSearch
                         ++ [AString (lit "No search string for image")]) |} |},
     h2).
Proof.
  intros Hval Hget Hroot Hroot_search Hscrape Htitle Hempty.
  enter_handler Hval Hget Hroot.
  root_branch Hroot_search.
  all: erewrite bind_returns by exact Hscrape.
  all: cbv beta iota; rewrite Htitle, Hempty.
  all: erewrite bind_returns by apply getBingImageSearch_empty.
  all: reflexivity.
Qed.

Lemma X10_empty_search_string_makes_no_request_witness :
  exists r tr,
    handler (world [EM_DASH] (provider five ten))
            (GET "https://example.com/article") []
    = (Return
         {| status := 200;
            body :=
              {| success := true; result := Some r; error := None;
                 errors := Some [AString (lit "No search string for image")] |} |},
       tr)
    /\ imageSearch r = [] /\ length (requests tr) = 1%nat.
Proof.
  pose proof (X10_empty_search_string_makes_no_request
                (world [EM_DASH] (provider five ten))
                (GET "https://example.com/article")
                (lit "https://example.com/article") (lit "example")
                [] _ _ _ _
                (ex_intro _ (lit "https://example.com/article")
                   (conj eq_refl (conj eq_refl eq_refl)))
                eq_refl
                (ex_intro _ (lit "example.com")
                   (conj eq_refl (conj eq_refl eq_refl)))
                eq_refl eq_refl eq_refl eq_refl) as Hrun.
  eexists _, _. split; [rewrite Hrun; reflexivity |].
  split; reflexivity.
Defined.

(** X11: when the page-specific search gives results the response has
    no [errors] entry, also when the root-domain search failed: its
    error is dropped, and the five splices still run, on an empty
    [rootDomainImageUrls]. *)
Theorem X11_full_success_drops_root_error
    (w : World) (req : Request) (targetUrl sld : jsstring)
    (h h1 h2 h3 : list event)
    (rootSearch pageSearch : ImageSearch) (ps : list ImageResult)
    (data : MetaTags) :
  validated w req targetUrl ->
  is_GET (req_method req) = true ->
  root_resolves w targetUrl sld ->
  getBingImageSearch w sld h = (Return rootSearch, h1) ->
  scrapeMetaTags w targetUrl h1 = (Return (ScrapeData data), h2) ->
  test_nonspace (title data) = true ->
  getBingImageSearch w
    (getImageSearchString w (title data) (Tags.url data) (siteName data)) h2
    = (Return pageSearch, h3) ->
  results pageSearch = Some ps ->
  handler w req h =
    (Return
       {| status := 200;
          body :=
            {| success := true;
               result :=
                 Some {| metaTags := Some data;
                         imageSearch :=
                           getImageSearchString w (title data) (Tags.url data)
                             (siteName data);
                         imageResults :=
                           splice_merge (root_images rootSearch)
                             (map AString (map contentUrl ps)) |};
               error := None;
               errors := None |} |},
     h3).
Proof.
  intros Hval Hget Hroot Hroot_search Hscrape Htitle Hpage Hps.
  enter_handler Hval Hget Hroot.
  root_branch Hroot_search.
  all: erewrite bind_returns by exact Hscrape.
  all: cbv beta iota; rewrite Htitle.
  all: erewrite bind_returns by exact Hpage.
  all: rewrite Hps; cbv beta iota zeta.
  all: rewrite <- (map_map contentUrl AString); reflexivity.
Qed.

Lemma X11_full_success_drops_root_error_witness :
  exists r tr,
    handler (world article (provider refused ten))
            (GET "https://example.com/article") []
    = (Return
         {| status := 200;
            body := {| success := true; result := Some r;
                       error := None; errors := None |} |},
       tr)
    /\ length (imageResults r) = 15%nat
    /\ imageResults r !! 2%nat = Some AUndefined
    /\ drop 13 (imageResults r) = [AUndefined; AUndefined].
Proof.
  pose proof (X11_full_success_drops_root_error
                (world article (provider refused ten))
                (GET "https://example.com/article")
                (lit "https://example.com/article") (lit "example")
                [] _ _ _ _ _ _ _
                (ex_intro _ (lit "https://example.com/article")
                   (conj eq_refl (conj eq_refl eq_refl)))
                eq_refl
                (ex_intro _ (lit "example.com")
                   (conj eq_refl (conj eq_refl eq_refl)))
                eq_refl eq_refl eq_refl eq_refl eq_refl) as Hrun.
  eexists _, _. split; [rewrite Hrun; reflexivity |].
  repeat split.
Defined.

(** ** Every run of the handler *)

(** What one search does: it adds no event or the one request for its
    search string. *)
Lemma getBingImageSearch_events w search h o h' :
  getBingImageSearch w search h = (o, h') ->
  exists evs,
    h' = h ++ evs
    /\ (evs = [] \/ exists r, evs = [EvRequest (search_url w search) r]).
Proof.
  unfold getBingImageSearch, search_url.
  destruct (truthy search).
  - destruct (isWellFormed search).
    + rewrite bind_ret. unfold try_catch, bind, request.
      destruct (api_request w h _) eqn:Hr; cbn; intros [= <- <-];
        eexists; (split; [reflexivity |]); right; eexists; reflexivity.
    + rewrite bind_throw. intros [= <- <-]. exists [].
      rewrite app_nil_r. split; [reflexivity | now left].
  - intros [= <- <-]. exists []. rewrite app_nil_r. split; [reflexivity | now left].
Qed.

(** What one scrape does: at most one fetch and at most one render, and
    no request to the image-search provider. *)
Lemma scrapeMetaTags_events w u h :
  exists o evs,
    scrapeMetaTags w u h = (o, h ++ evs)
    /\ requests evs = []
    /\ (length (filter is_fetch evs) <= 1)%nat
    /\ (length (filter is_render evs) <= 1)%nat.
Proof.
  destruct (scrapeMetaTags_runs w u h) as (o & evs & Hrun & Hreq & _ & Hbounds).
  now exists o, evs.
Qed.

Ltac no_events :=
  intros [= <- <-]; exists []; rewrite app_nil_r; repeat split; vm_compute; lia.

(** X12: in every world and for every request, a run of the handler
    makes at most two requests to the image-search provider, at most one
    fetch of the page and at most one launch of the browser. *)
Theorem X12_io_of_a_run
    (w : World) (req : Request) (h h' : list event) (o : outcome Response) :
  handler w req h = (o, h') ->
  exists evs,
    h' = h ++ evs
    /\ (length (requests evs) <= 2)%nat
    /\ (length (filter is_fetch evs) <= 1)%nat
    /\ (length (filter is_render evs) <= 1)%nat.
Proof.
  unfold handler.
  destruct (isString (req_query_url req)) as [raw |]; [| no_events].
  destruct (decodeURIComponent w (base64_decode w raw)) as [e | targetUrl];
    cbn [lift]; [rewrite bind_throw; no_events | rewrite bind_ret].
  destruct (isValidWebUrl w targetUrl); [| no_events].
  destruct (is_GET (req_method req)); [| no_events].
  destruct (as_truthy (psl_get w (extractHostname w targetUrl))) as [rootDomain |];
    [| rewrite bind_throw; no_events].
  destruct (parsed_error (psl_parse w rootDomain));
    [rewrite bind_throw; no_events |].
  destruct (as_truthy (parsed_sld (psl_parse w rootDomain))) as [sld |];
    [| rewrite bind_throw; no_events].
  destruct (getBingImageSearch w sld h) as [rootOutcome h1] eqn:Hroot_search.
  destruct (getBingImageSearch_events w sld h _ _ Hroot_search)
    as (evs1 & -> & Hevs1).
  assert (Hone : (length (requests evs1) <= 1
                  /\ filter is_fetch evs1 = [] /\ filter is_render evs1 = [])%nat)
    by (destruct Hevs1 as [-> | [r ->]]; repeat split; try reflexivity;
        vm_compute; lia).
  destruct Hone as (Hreq1 & Hfetch1 & Hrender1).
  destruct rootOutcome as [rootSearch | e];
    [| erewrite bind_throws by (erewrite bind_throws by exact Hroot_search; reflexivity);
       intros [= <- <-]; exists evs1; rewrite Hfetch1, Hrender1;
       repeat split; cbn; lia].
  destruct (scrapeMetaTags_events w targetUrl (h ++ evs1))
    as (scraped & evs2 & Hscrape & Hnone & Hfetch & Hrender).
  assert (Hupto :
    exists evs, (h ++ evs1) ++ evs2 = h ++ evs
      /\ (length (requests evs) <= 1)%nat
      /\ (length (filter is_fetch evs) <= 1)%nat
      /\ (length (filter is_render evs) <= 1)%nat).
  { exists (evs1 ++ evs2). split; [now rewrite app_assoc |].
    unfold requests in *. rewrite !filter_app, !length_app.
    rewrite Hnone, Hfetch1, Hrender1. cbn. repeat split; lia. }
  destruct (results rootSearch) as [rs |] eqn:Hrs.
  all: erewrite bind_returns;
    [| erewrite bind_returns by exact Hroot_search; rewrite Hrs; reflexivity].
  all: cbv beta iota.
  all: destruct scraped as [tags | e];
    [erewrite bind_returns by exact Hscrape
    | erewrite bind_throws by exact Hscrape;
      intros [= <- <-]; destruct Hupto as (evs & -> & ? & ? & ?);
      exists evs; repeat split; lia].
  all: destruct tags as [data | tags_errors].
  all: try (intros [= <- <-]; destruct Hupto as (evs & -> & ? & ? & ?);
            exists evs; repeat split; lia).
  all: cbv beta iota; destruct (test_nonspace (title data)).
  all: try (intros [= <- <-]; destruct Hupto as (evs & -> & ? & ? & ?);
            exists evs; repeat split; lia).
  all: match goal with
       | |- context [bind (getBingImageSearch ?w' ?q) _ ?h2] =>
           destruct (getBingImageSearch w' q h2) as [pageOutcome h3] eqn:Hpage;
           destruct (getBingImageSearch_events w' q h2 _ _ Hpage)
             as (evs3 & -> & Hevs3)
       end.
  all: destruct Hupto as (evs & Hupto & Hr & Hf & Hb).
  all: assert (Hthree : (length (requests evs3) <= 1
                  /\ filter is_fetch evs3 = [] /\ filter is_render evs3 = [])%nat)
    by (destruct Hevs3 as [-> | [r ->]]; repeat split; try reflexivity;
        vm_compute; lia).
  all: destruct Hthree as (Hreq3 & Hfetch3 & Hrender3).
  all: destruct pageOutcome as [pageSearch | e];
    [erewrite bind_returns by exact Hpage; destruct (results pageSearch)
    | erewrite bind_throws by exact Hpage].
  all: intros [= <- <-].
  all: exists (evs ++ evs3); (split; [now rewrite Hupto, app_assoc |]).
  all: unfold requests in *; rewrite !filter_app, !length_app.
  all: rewrite Hfetch3, Hrender3; cbn; repeat split; lia.
Qed.

Lemma X12_io_of_a_run_witness :
  exists evs,
    snd (handler (rendered article (provider five ten))
           (GET "https://example.com/article") []) = [] ++ evs
    /\ (length (requests evs) <= 2)%nat
    /\ (length (filter is_fetch evs) <= 1)%nat
    /\ (length (filter is_render evs) <= 1)%nat.
Proof.
  exact (X12_io_of_a_run (rendered article (provider five ten))
           (GET "https://example.com/article") [] _ _ eq_refl).
Defined.

(** X13: the responses of the handler come in two shapes. Status 200
    goes with [success: true], a result and no [error]; the statuses 400
    and 404 go with [success: false], an [error] text, no result and no
    [errors], and are given before any network call. No other status is
    sent. *)
Theorem X13_response_shapes
    (w : World) (req : Request) (h h' : list event) (resp : Response) :
  handler w req h = (Return resp, h') ->
  (status resp = 200
   /\ success (body resp) = true
   /\ is_Some (result (body resp))
   /\ error (body resp) = None)
  \/ ((status resp = 400 \/ status resp = 404)
      /\ success (body resp) = false
      /\ result (body resp) = None
      /\ is_Some (error (body resp))
      /\ errors (body resp) = None
      /\ h' = h).
Proof.
  unfold handler.
  destruct (isString (req_query_url req)) as [raw |];
    [| intros [= <- <-]; right; cbn; repeat split; eauto].
  destruct (decodeURIComponent w (base64_decode w raw)) as [e | targetUrl];
    cbn [lift]; [rewrite bind_throw; discriminate | rewrite bind_ret].
  destruct (isValidWebUrl w targetUrl);
    [| intros [= <- <-]; right; cbn; repeat split; eauto].
  destruct (is_GET (req_method req));
    [| intros [= <- <-]; right; cbn; repeat split; eauto].
  destruct (as_truthy (psl_get w (extractHostname w targetUrl))) as [rootDomain |];
    [| rewrite bind_throw; discriminate].
  destruct (parsed_error (psl_parse w rootDomain));
    [rewrite bind_throw; discriminate |].
  destruct (as_truthy (parsed_sld (psl_parse w rootDomain))) as [sld |];
    [| rewrite bind_throw; discriminate].
  destruct (getBingImageSearch_outcome w sld h)
    as [(rootSearch & h1 & Hroot_search) | (_ & _ & Hthrow)];
    [| erewrite bind_throws by (erewrite bind_throws by exact Hthrow; reflexivity);
       discriminate].
  destruct (scrapeMetaTags_runs w targetUrl h1) as (scraped & evs & Hscrape & _).
  destruct (results rootSearch) as [rs |] eqn:Hrs.
  all: erewrite bind_returns;
    [| erewrite bind_returns by exact Hroot_search; rewrite Hrs; reflexivity].
  all: cbv beta iota.
  all: destruct scraped as [[data | tags_errors] | e];
    [erewrite bind_returns by exact Hscrape
    | erewrite bind_returns by exact Hscrape;
      intros [= <- <-]; left; cbn; repeat split; eauto
    | erewrite bind_throws by exact Hscrape; discriminate].
  all: cbv beta iota; destruct (test_nonspace (title data));
    [| intros [= <- <-]; left; cbn; repeat split; eauto].
  all: match goal with
       | |- context [bind (getBingImageSearch ?w' ?q) _ ?h2] =>
           destruct (getBingImageSearch_outcome w' q h2)
             as [(pageSearch & h3 & Hpage) | (_ & _ & Hpage)]
       end.
  all: try (erewrite bind_throws by exact Hpage; discriminate).
  all: erewrite bind_returns by exact Hpage.
  all: destruct (results pageSearch);
    intros [= <- <-]; left; cbn; repeat split; eauto.
Qed.

Lemma X13_response_shapes_witness :
  status {| status := 404;
            body := {| success := false; result := None;
                       error := Some (lit "Method POST not allowed");
                       errors := None |} |} = 404
  /\ handler (world article (provider five ten))
       (POST "https://example.com/article") []
     = (Return {| status := 404;
                  body := {| success := false; result := None;
                             error := Some (lit "Method POST not allowed");
                             errors := None |} |}, []).
Proof.
  assert (Hrun : handler (world article (provider five ten))
                   (POST "https://example.com/article") []
                 = (Return {| status := 404;
                              body := {| success := false; result := None;
                                         error := Some (lit "Method POST not allowed");
                                         errors := None |} |}, []))
    by reflexivity.
  destruct (X13_response_shapes _ _ _ _ _ Hrun) as [(H200 & _) | ([H400 | H404] & _)].
  - discriminate H200.
  - discriminate H400.
  - split; [exact H404 | exact Hrun].
Defined.

(** ** The two attempts of the scraper *)

Ltac run_scraper :=
  unfold scrapeMetaTags, log_fetch_error;
  unfold try_catch, bind, lift, fetch, render, console_log, ret, throw.

(** X14: when the direct fetch returns a body that is not empty, the
    browser is not launched: the scrape consists of that one fetch, of
    the URL decoded and encoded again, and the metadata are read from
    its body, with the URL as it was passed in. *)
Theorem X14_fetched_page_is_not_rendered
    (w : World) (u decoded data : jsstring) (h : list event) :
  decodeURI w u = inr decoded ->
  api_get w h (encodeURI w decoded) = FetchData data ->
  truthy data = true ->
  exists tags,
    scrapeMetaTags w u h =
      (Return (ScrapeData tags),
       h ++ [EvFetch (encodeURI w decoded) (FetchData data)])
    /\ Tags.url tags = u
    /\ title tags = cheerio_text w data (lit "title")
    /\ description tags = getMetatag w data (lit "description")
    /\ siteName tags = getMetatag w data (lit "site_name").
Proof.
  intros Hd Hfetch Hdata. run_scraper.
  rewrite Hd. cbv beta iota zeta. rewrite Hfetch.
  repeat (cbv beta iota zeta;
          change (js_truthy (AString data)) with (truthy data);
          rewrite Hdata).
  change (cheerio_document w (AString data)) with (@inr js_error jsstring data).
  eexists. split; [reflexivity |]. repeat split.
Qed.

Lemma X14_fetched_page_is_not_rendered_witness :
  exists tags,
    scrapeMetaTags (world article (provider five ten))
      (lit "https://example.com/article") []
    = (Return (ScrapeData tags),
       [EvFetch (lit "https://example.com/article")
                (FetchData (lit "<html></html>"))])
    /\ title tags = article.
Proof.
  destruct (X14_fetched_page_is_not_rendered
              (world article (provider five ten))
              (lit "https://example.com/article")
              (lit "https://example.com/article") (lit "<html></html>") []
              eq_refl eq_refl eq_refl) as (tags & Hrun & _ & Htitle & _).
  exists tags. split; [exact Hrun | exact Htitle].
Defined.

(** X15: when [decodeURI] throws on the URL, no fetch is made; the
    error is logged and kept, and the browser is launched on the URL as
    it was passed in. *)
Theorem X15_undecodable_url_goes_to_the_browser
    (w : World) (u : jsstring) (e : js_error) (h : list event) :
  decodeURI w u = inl e ->
  exists r evs reply,
    scrapeMetaTags w u h = (Return r, h ++ evs)
    /\ filter is_fetch evs = []
    /\ filter is_render evs = [EvRender u reply]
    /\ (forall errs, r = ScrapeErrors errs -> head errs = Some e).
Proof.
  intros Hd. run_scraper. rewrite Hd.
  repeat (case_split; cbn [fst snd]);
    simplify_eq; rewrite <- ?app_assoc; cbn [app];
    try discriminate;
    eexists _, _, _; (split; [reflexivity |]).
  all: repeat split; try reflexivity.
  all: try (intros errs [= <-]; reflexivity).
  all: try (intros errs [=]).
Qed.

Lemma X15_undecodable_url_goes_to_the_browser_witness :
  exists r evs reply,
    scrapeMetaTags (rendered article (provider five ten))
      (lit "https://example.com/100%") []
    = (Return r, [] ++ evs)
    /\ filter is_fetch evs = []
    /\ filter is_render evs = [EvRender (lit "https://example.com/100%") reply].
Proof.
  destruct (X15_undecodable_url_goes_to_the_browser
              (rendered article (provider five ten))
              (lit "https://example.com/100%") malformed [] eq_refl)
    as (r & evs & reply & Hrun & Hfetch & Hrender & _).
  exists r, evs, reply. repeat split; assumption.
Defined.

(** X16: when the fetch is rejected and the browser fails as well, the
    scrape resolves to the two errors, the one of the fetch first. *)
Theorem X16_both_attempts_fail
    (w : World) (u decoded : jsstring) (e1 e2 : js_error) (h : list event) :
  decodeURI w u = inr decoded ->
  api_get w h (encodeURI w decoded) = FetchError e1 ->
  (forall h', puppeteer_render w h' u = RenderFailed e2) ->
  exists h', scrapeMetaTags w u h = (Return (ScrapeErrors [e1; e2]), h').
Proof.
  intros Hd Hfetch Hrender. run_scraper.
  rewrite Hd. cbv beta iota zeta. rewrite Hfetch.
  repeat (case_split; cbn [fst snd]); simplify_eq;
    try discriminate;
    rewrite Hrender in *; simplify_eq; eexists; reflexivity.
Qed.

Lemma X16_both_attempts_fail_witness :
  exists h',
    scrapeMetaTags (offline article (provider five ten))
      (lit "https://example.com/article") []
    = (Return (ScrapeErrors [timed_out; crashed]), h').
Proof.
  apply (X16_both_attempts_fail (offline article (provider five ten))
           (lit "https://example.com/article")
           (lit "https://example.com/article") timed_out crashed []
           eq_refl eq_refl).
  intros h'. reflexivity.
Defined.

(** X17: when the fetch returns an empty body, the page rendered by the
    browser is used, also when closing the browser fails afterwards: the
    metadata are read from the outer HTML the browser captured. *)
Theorem X17_empty_body_falls_back_to_render
    (w : World) (u decoded html : jsstring) (close : option js_error)
    (h : list event) :
  decodeURI w u = inr decoded ->
  api_get w h (encodeURI w decoded) = FetchData [] ->
  (forall h', puppeteer_render w h' u = RenderEvaluated (Some html) close) ->
  truthy html = true ->
  exists tags h',
    scrapeMetaTags w u h = (Return (ScrapeData tags), h')
    /\ Tags.url tags = u
    /\ title tags = cheerio_text w html (lit "title").
Proof.
  intros Hd Hfetch Hrender Hhtml. run_scraper.
  rewrite Hd. cbv beta iota zeta. rewrite Hfetch.
  cbv beta iota zeta.
  change (js_truthy (AString [])) with false. cbv beta iota.
  repeat (case_split; cbn [fst snd]); simplify_eq;
    rewrite Hrender in *; simplify_eq;
    try (match goal with
         | H : js_truthy (AString ?x) = false |- _ =>
             change (js_truthy (AString x)) with (truthy x) in H; congruence
         end);
    try (match goal with
         | H : cheerio_document _ (AString _) = inl _ |- _ => discriminate H
         end);
    try (match goal with
         | H : cheerio_document _ (AString _) = inr _ |- _ =>
             injection H as <-
         end);
    eexists _, _; (split; [reflexivity |]); split; reflexivity.
Qed.

Lemma X17_empty_body_falls_back_to_render_witness :
  exists tags h',
    scrapeMetaTags
      (world_io article (provider five ten) (fun s => inr s) (fun s => inr s)
         (fun _ _ => FetchData [])
         (fun _ _ => RenderEvaluated (Some (lit "<html></html>")) (Some crashed)))
      (lit "https://example.com/article") []
    = (Return (ScrapeData tags), h')
    /\ Tags.url tags = lit "https://example.com/article"
    /\ title tags = article.
Proof.
  apply (X17_empty_body_falls_back_to_render
           (world_io article (provider five ten) (fun s => inr s) (fun s => inr s)
              (fun _ _ => FetchData [])
              (fun _ _ => RenderEvaluated (Some (lit "<html></html>")) (Some crashed)))
           (lit "https://example.com/article")
           (lit "https://example.com/article") (lit "<html></html>")
           (Some crashed) [] eq_refl eq_refl (fun _ => eq_refl) eq_refl).
Defined.

(** ** More on the search string *)

Lemma remove_go_length p k s : (length (remove_go p k s) <= length s)%nat.
Proof.
  revert k. induction s as [| c s IH]; intros k; cbn [remove_go length]; [lia |].
  destruct k as [| k].
  - destruct (matches_at p (c :: s)).
    + specialize (IH (pred (length p))). lia.
    + cbn [length]. specialize (IH 0%nat). lia.
  - specialize (IH k). lia.
Qed.

Lemma remove_go_In p k s c : In c (remove_go p k s) -> In c s.
Proof.
  revert k. induction s as [| x s IH]; intros k; cbn [remove_go]; [tauto |].
  destruct k as [| k].
  - destruct (matches_at p (x :: s)).
    + intros H. right. eapply IH, H.
    + intros [-> | H]; [now left | right; eapply IH, H].
  - intros H. right. eapply IH, H.
Qed.

Lemma remove_matches_length p s : (length (remove_matches p s) <= length s)%nat.
Proof. destruct p; cbn; [lia | apply remove_go_length]. Qed.

Lemma remove_matches_In p s c : In c (remove_matches p s) -> In c s.
Proof. destruct p; cbn; [tauto | apply remove_go_In]. Qed.

Lemma trimStart_length s : (length (trimStart s) <= length s)%nat.
Proof.
  induction s as [| c s IH]; cbn; [lia |].
  destruct (isWhiteSpace c); cbn; lia.
Qed.

Lemma trimEnd_length s : (length (trimEnd s) <= length s)%nat.
Proof.
  induction s as [| c s IH]; cbn; [lia |].
  destruct (trimEnd s); [destruct (isWhiteSpace c) |]; cbn in *; lia.
Qed.

Lemma trim_length s : (length (trim s) <= length s)%nat.
Proof.
  unfold trim. pose proof (trimEnd_length (trimStart s)).
  pose proof (trimStart_length s). lia.
Qed.

Lemma trimStart_blank s : test_nonspace s = false -> trimStart s = [].
Proof.
  induction s as [| c s IH]; cbn; [reflexivity |].
  destruct (isWhiteSpace c); cbn; [exact IH | discriminate].
Qed.

Lemma trimEnd_nonblank s : test_nonspace s = true -> trimEnd s <> [].
Proof.
  induction s as [| c s IH]; cbn; [discriminate |].
  destruct (isWhiteSpace c) eqn:Hc; cbn.
  - intros H. specialize (IH H). now destruct (trimEnd s).
  - intros _. now destruct (trimEnd s).
Qed.

Lemma trimStart_nonblank s : test_nonspace s = true -> test_nonspace (trimStart s) = true.
Proof.
  induction s as [| c s IH]; cbn; [discriminate |].
  destruct (isWhiteSpace c) eqn:Hc; cbn; [exact IH | now rewrite Hc].
Qed.

(** [trim] returns the empty string exactly on the strings without a
    character that is not white space. *)
Lemma trim_empty_iff s : trim s = [] <-> test_nonspace s = false.
Proof.
  split.
  - intros Hempty. destruct (test_nonspace s) eqn:Hs; [| reflexivity].
    apply trimStart_nonblank, trimEnd_nonblank in Hs. now destruct Hs.
  - intros Hs. unfold trim. now rewrite trimStart_blank.
Qed.

Lemma regex_test_false_remove p s :
  regex_test p s = false -> remove_matches p s = s.
Proof.
  destruct p as [| a p]; [reflexivity |]. unfold remove_matches.
  induction s as [| c s IH]; [reflexivity |].
  cbn [regex_test remove_go]. intros H.
  apply orb_false_iff in H as [Hhere Hlater].
  rewrite Hhere. f_equal. now apply IH.
Qed.

(** The text [getImageSearchString] cleans: the title, or the title
    without the matches of the root domain. *)
Lemma getImageSearchString_chosen w title u sn :
  exists chosen,
    getImageSearchString w title u sn = trim (replace_special chosen)
    /\ (length chosen <= length title)%nat
    /\ (forall c, In c chosen -> In c title).
Proof.
  rewrite getImageSearchString_eq.
  destruct (as_truthy (psl_get w (extractHostname w u))) as [rootDomain |].
  - destruct (test_nonspace (remove_matches (RegExp_ig rootDomain) title)).
    + eexists. split; [reflexivity |]. split.
      * apply remove_matches_length.
      * intros c. apply remove_matches_In.
    + exists title. repeat split; [lia | tauto].
  - exists title. repeat split; [lia | tauto].
Qed.

(** X18: the search string is never longer than the title, in every
    world: removing the domain, blanking the special characters and
    trimming only delete or replace code units. *)
Theorem X18_search_string_not_longer_than_title
    (w : World) (title u : jsstring) (sn : option jsstring) :
  (length (getImageSearchString w title u sn) <= length title)%nat.
Proof.
  destruct (getImageSearchString_chosen w title u sn) as (chosen & -> & Hlen & _).
  pose proof (trim_length (replace_special chosen)).
  rewrite replace_special_length in *. lia.
Qed.

(** X19: a title made of white space and special characters only gives
    the empty search string, whatever the domain. *)
Theorem X19_punctuation_title_gives_empty_search_string
    (w : World) (title u : jsstring) (sn : option jsstring) :
  (forall c, In c title -> isWhiteSpace c = true \/ isSpecialChar c = true) ->
  getImageSearchString w title u sn = [].
Proof.
  intros Hall.
  destruct (getImageSearchString_chosen w title u sn) as (chosen & -> & _ & Hin).
  apply trim_empty_iff. unfold test_nonspace, replace_special.
  apply not_true_is_false. intros Hex.
  apply existsb_exists in Hex as (c & Hc & Hvisible).
  apply in_map_iff in Hc as (x & <- & Hx).
  destruct (Hall x (Hin x Hx)) as [Hws | Hsp].
  - destruct (isSpecialChar x); [discriminate Hvisible |].
    now rewrite Hws in Hvisible.
  - rewrite Hsp in Hvisible. discriminate Hvisible.
Qed.

Lemma X19_punctuation_title_gives_empty_search_string_witness :
  getImageSearchString (world article (provider five ten))
    (lit " ... " ++ [EM_DASH] ++ lit " ?") (lit "https://example.com/article") None
  = [].
Proof.
  apply (X19_punctuation_title_gives_empty_search_string
           (world article (provider five ten))
           (lit " ... " ++ [EM_DASH] ++ lit " ?") (lit "https://example.com/article")
           None).
  intros c Hc. cbn in Hc.
  repeat (destruct Hc as [<- | Hc]; [vm_compute; tauto |]). destruct Hc.
Defined.

(** X20: when the pattern of the root domain matches nowhere in the
    title, the search string is the title with its special characters
    blanked and its ends trimmed: nothing else is removed. *)
Theorem X20_title_without_the_domain_is_only_cleaned
    (w : World) (title u : jsstring) (sn : option jsstring) (rootDomain : jsstring) :
  as_truthy (psl_get w (extractHostname w u)) = Some rootDomain ->
  domain_pattern rootDomain = true ->
  regex_test (RegExp_ig rootDomain) title = false ->
  getImageSearchString w title u sn = trim (replace_special title).
Proof.
  intros Hroot _ Hnone.
  rewrite getImageSearchString_eq, Hroot, regex_test_false_remove by exact Hnone.
  now destruct (test_nonspace title).
Qed.

Lemma X20_title_without_the_domain_is_only_cleaned_witness :
  getImageSearchString (world article (provider five ten))
    (lit "Example Article: part 2") (lit "https://example.com/article") None
  = lit "Example Article  part 2".
Proof.
  rewrite (X20_title_without_the_domain_is_only_cleaned
             (world article (provider five ten))
             (lit "Example Article: part 2") (lit "https://example.com/article")
             None (lit "example.com") eq_refl eq_refl eq_refl).
  vm_compute. reflexivity.
Defined.

(** X21: in every world and for every title the search string holds no
    special character, neither starts nor ends with white space, and is
    empty or holds a character that is not white space: the provider is
    never asked for a blank query. *)
Theorem X21_search_string_is_clean
    (w : World) (title u : jsstring) (sn : option jsstring) :
  let searchString := getImageSearchString w title u sn in
  (forall c, In c searchString -> isSpecialChar c = false)
  /\ (forall c, head searchString = Some c \/ last searchString = Some c ->
                isWhiteSpace c = false)
  /\ (searchString = [] \/ test_nonspace searchString = true).
Proof.
  intros searchString. subst searchString.
  destruct (getImageSearchString_chosen w title u sn) as (chosen & -> & _).
  split; [| split].
  - intros c Hc. apply trim_In in Hc. now apply replace_special_In in Hc.
  - intros c. apply trim_ends.
  - destruct (trim (replace_special chosen)) as [| c s] eqn:Htrim; [now left |].
    right. cbn. rewrite (trim_ends (replace_special chosen) c); [reflexivity |].
    left. now rewrite Htrim.
Qed.

(** ** The meta tags and the search *)

Lemma js_or_truthy a b :
  as_truthy (js_or a b) =
    match as_truthy a with
    | Some s => Some s
    | None => as_truthy b
    end.
Proof. unfold js_or. destruct (as_truthy a) eqn:Ha; [exact Ha | reflexivity]. Qed.

(** X22: when [getMetatag] gives a non-empty string, it is the
    [content] of the first of its four selectors (plain name, [og:]
    name, [og:] property, [twitter:] name) where that attribute is a
    non-empty string; an attribute that is absent or empty is passed
    over, and no non-empty string is given when all four are. *)
Theorem X22_getMetatag_precedence (w : World) (html name : jsstring) :
  let content sel := cheerio_attr w html sel (lit "content") in
  let plain := content (lit "meta[name=" ++ name ++ lit "]") in
  let og_name :=
    content (lit "meta[name=" ++ [QUOTE] ++ lit "og:" ++ name ++ [QUOTE] ++ lit "]") in
  let og_property :=
    content (lit "meta[property=" ++ [QUOTE] ++ lit "og:" ++ name ++ [QUOTE] ++ lit "]") in
  let twitter :=
    content (lit "meta[name=" ++ [QUOTE] ++ lit "twitter:" ++ name ++ [QUOTE] ++ lit "]") in
  as_truthy (getMetatag w html name) =
    head (omap as_truthy [plain; og_name; og_property; twitter]).
Proof.
  intros content plain og_name og_property twitter.
  unfold getMetatag. rewrite !js_or_truthy.
  subst plain og_name og_property twitter content. cbn [omap list_omap].
  repeat (case_split; cbn [head]); reflexivity.
Qed.

(** X23: [getBingImageSearch] throws in one case only: the query is
    not empty and holds a lone surrogate, on which [encodeURIComponent]
    throws [URIError] before the [try], and no request is made. In every
    other case it resolves. It resolves with [results] only when it
    asked the provider, at the search URL of its query, and the reply
    held a [value] array. Without results its [error] is the text "No
    search string for image" for the empty query (and nothing was
    asked), the rejection of the provider, or [undefined] when the reply
    held no [value]. *)
Theorem X23_search_outcomes (w : World) (search : jsstring) (h : list event) :
  exists o evs,
    getBingImageSearch w search h = (o, h ++ evs)
    /\ match o with
       | Throw e =>
           e = URIError /\ truthy search = true
           /\ isWellFormed search = false /\ evs = []
       | Return found =>
           match results found with
           | Some rs =>
               truthy search = true /\ isWellFormed search = true
               /\ api_request w h (search_url w search) = ProviderData (Some rs)
               /\ search_error found = AUndefined
               /\ evs = [EvRequest (search_url w search) (ProviderData (Some rs))]
           | None =>
               (search = []
                /\ search_error found = AString (lit "No search string for image")
                /\ evs = [])
               \/ (exists e,
                     isWellFormed search = true
                     /\ api_request w h (search_url w search) = ProviderError e
                     /\ search_error found = AError e
                     /\ evs = [EvRequest (search_url w search) (ProviderError e)])
               \/ (isWellFormed search = true
                   /\ api_request w h (search_url w search) = ProviderData None
                   /\ search_error found = AUndefined
                   /\ evs = [EvRequest (search_url w search) (ProviderData None)])
           end
       end.
Proof.
  unfold getBingImageSearch. fold (search_url w search).
  destruct search as [| c search]; cbn [truthy].
  - eexists _, []. rewrite app_nil_r. split; [reflexivity |].
    cbn. left. repeat split.
  - destruct (isWellFormed (c :: search)) eqn:Hwf.
    + rewrite bind_ret. fold (search_url w (c :: search)).
      unfold try_catch, bind, request.
      destruct (api_request w h (search_url w (c :: search)))
        as [[rs |] | e] eqn:Hreply;
        cbv beta iota zeta; eexists _, _; (split; [reflexivity |]);
        cbv beta iota; cbn [results search_error].
      * repeat split.
      * right. right. repeat split.
      * right. left. exists e. repeat split.
    + rewrite bind_throw. eexists _, []. rewrite app_nil_r.
      split; [reflexivity |]. repeat split.
Qed.

(** ** More on the splices *)

Lemma insert_at_sublist {A} (i : nat) (x : A) (l : list A) :
  l `sublist_of` insert_at i x l.
Proof.
  unfold insert_at. rewrite <- (take_drop i l) at 1.
  apply sublist_app; [reflexivity |]. now apply sublist_cons.
Qed.

Lemma insert_at_take {A} (n i : nat) (x : A) (l : list A) :
  (n <= i)%nat -> (n <= length l)%nat -> take n (insert_at i x l) = take n l.
Proof.
  intros Hi Hl. unfold insert_at.
  rewrite take_app_le by (rewrite length_take; lia).
  rewrite take_take. f_equal. lia.
Qed.

(** X24: the five splices keep every page-specific image, in the order
    of the provider, and add exactly five entries, whatever the number
    of root-domain images. *)
Theorem X24_splices_keep_the_page_images
    (rootDomainImageUrls : list jsstring) (imageUrls : list jsany) :
  imageUrls `sublist_of` splice_merge rootDomainImageUrls imageUrls
  /\ length (splice_merge rootDomainImageUrls imageUrls) = (length imageUrls + 5)%nat.
Proof.
  rewrite splice_merge_spec. unfold spec_merge. split.
  - repeat (etrans; [| apply insert_at_sublist]). reflexivity.
  - rewrite !insert_at_length. lia.
Qed.

(** X25: with at least two page-specific images, the two best ranked
    stay in front and the third entry is the first root-domain image,
    or [undefined] when there is none. *)
Theorem X25_front_of_the_merged_list
    (rootDomainImageUrls : list jsstring) (imageUrls : list jsany) :
  (2 <= length imageUrls)%nat ->
  take 3 (splice_merge rootDomainImageUrls imageUrls)
    = take 2 imageUrls ++ [array_get rootDomainImageUrls 0].
Proof.
  intros Hlen. rewrite splice_merge_spec. unfold spec_merge.
  rewrite !insert_at_take by (rewrite ?insert_at_length; lia).
  unfold insert_at.
  rewrite take_app_ge by (rewrite length_take; lia).
  rewrite length_take, Nat.min_l by lia.
  reflexivity.
Qed.

Lemma X25_front_of_the_merged_list_witness :
  take 3 (splice_merge [] [AString (lit "p0"); AString (lit "p1"); AString (lit "p2")])
  = [AString (lit "p0"); AString (lit "p1"); AUndefined].
Proof.
  apply (X25_front_of_the_merged_list
           [] [AString (lit "p0"); AString (lit "p1"); AString (lit "p2")]).
  cbn. lia.
Defined.

(** ** What the scraper lets through *)

(** X26: [scrapeMetaTags] never passes on a failure of the fetch or of
    the render. When neither attempt left a truthy [html] it resolves to
    [{ errors }]. When one did and it is a string, it resolves to
    [{ data }] read from it. When the fetched body is truthy and not a
    string, the outcome is that of [cheerio.load] on it: the error it
    throws is thrown by [scrapeMetaTags], which is the only way the
    function throws. *)
Theorem X26_scrape_outcomes (w : World) (u : jsstring) (h : list event) :
  exists o evs,
    scrapeMetaTags w u h = (o, h ++ evs)
    /\ match html_obtained evs with
       | None => exists errs, o = Return (ScrapeErrors errs)
       | Some (AString markup) =>
           exists data, o = Return (ScrapeData data)
             /\ Tags.url data = u
             /\ title data = cheerio_text w markup (lit "title")
       | Some body =>
           match cheerio_load w body with
           | inl e => o = Throw e
           | inr markup =>
               exists data, o = Return (ScrapeData data)
                 /\ Tags.url data = u
                 /\ title data = cheerio_text w markup (lit "title")
           end
       end.
Proof.
  destruct (scrapeMetaTags_runs w u h) as (o & evs & Hrun & _ & Hres & _).
  exists o, evs. split; [exact Hrun |].
  destruct (html_obtained evs) as [[] |]; exact Hres.
Qed.
